(** * split_hindcast_WDCC: splitting daily GraphCast hindcast files

    A shallow embedding of [split_hindcast_WDCC.py].  The script reads one
    NetCDF file per day, sorts its variables into a surface collection and
    six pressure-level groups, and writes one surface file and one file per
    pressure-level quantity.

    What the script gets from xarray, numpy, [os] and [datetime] is input of
    the model: the result of opening a path, the result of concatenating
    arrays, the directory listing, the clock.  What the script does to the
    outside is recorded in a [World]: lines printed, records appended to
    [skipped_files.txt], datasets handed to [to_netcdf], directories made.

    File names and variable names are byte strings; [\d] of the two regular
    expressions is the decimal digits [0]..[9]. *)

From stdpp Require Import gmap strings list fin_maps pretty sorting.
From Stdlib Require Import ZArith Lia Ascii.

Local Open Scope Z_scope.

(** ** Attributes and arrays *)

(** An attribute value: the script stores strings, and the integer [1]
    under ["realization"]. *)
Inductive attr_val : Type :=
  | AStr (s : string)
  | AInt (z : Z).

#[global] Instance attr_val_eq_dec : EqDecision attr_val.
Proof. solve_decision. Defined.

(** [d.update(new)]: the keys of [new] take the values of [new]. *)
Definition attrs_update (d new : gmap string attr_val) : gmap string attr_val :=
  new ∪ d.

(** [d.pop(k, None)]. *)
Definition attrs_pop (k : string) (d : gmap string attr_val) : gmap string attr_val :=
  delete k d.

(** A [DataArray] (also used for a coordinate variable): its named
    dimensions with their sizes, its attributes, and its cells, which the
    script never looks at. *)
Record DataArray : Type := mkDataArray {
  da_dims : list (string * nat);
  da_attrs : gmap string attr_val;
  da_values : list Z
}.

#[global] Instance DataArray_eq_dec : EqDecision DataArray.
Proof. solve_decision. Defined.

Definition da_update_attrs (new : gmap string attr_val) (da : DataArray) : DataArray :=
  {| da_dims := da_dims da;
     da_attrs := attrs_update (da_attrs da) new;
     da_values := da_values da |}.

Definition da_map_attrs (f : gmap string attr_val → gmap string attr_val)
    (da : DataArray) : DataArray :=
  {| da_dims := da_dims da;
     da_attrs := f (da_attrs da);
     da_values := da_values da |}.

(** [sizes[name]] of an array. *)
Fixpoint dim_size (name : string) (dims : list (string * nat)) : option nat :=
  match dims with
  | [] => None
  | (d, n) :: rest => if decide (d = name) then Some n else dim_size name rest
  end.

Definition drop_history_dim (data_array : DataArray) : DataArray :=
  match dim_size "history" (da_dims data_array) with
  | Some 1%nat =>
      {| da_dims := filter (λ d, d.1 ≠ "history") (da_dims data_array);
         da_attrs := da_attrs data_array;
         da_values := da_values data_array |}
  | _ => data_array
  end.

(** An opened dataset: its variables by name (coordinates and data
    variables alike, as [name in ds] and [ds[name]] see them), and the names
    of the data variables in the order [ds.data_vars] yields them. *)
Record Dataset : Type := mkDataset {
  ds_variables : gmap string DataArray;
  ds_data_vars : list string
}.

(** ** FilenameDateParser: the two regular expressions *)

Definition is_digit (c : ascii) : bool :=
  (48 <=? nat_of_ascii c)%nat && (nat_of_ascii c <=? 57)%nat.

Fixpoint all_digits (s : string) : bool :=
  match s with
  | EmptyString => true
  | String c rest => is_digit c && all_digits rest
  end.

(** Match the literal [lit] at the start of [s]; the rest of [s]. *)
Fixpoint expect (lit s : string) : option string :=
  match lit with
  | EmptyString => Some s
  | String a lit' =>
      match s with
      | EmptyString => None
      | String b s' => if decide (a = b) then expect lit' s' else None
      end
  end.

(** Match [\d{n}] at the start of [s]; the digits and the rest of [s]. *)
Fixpoint digits (n : nat) (s : string) : option (string * string) :=
  match n with
  | O => Some (EmptyString, s)
  | S n' =>
      match s with
      | EmptyString => None
      | String c s' =>
          if is_digit c
          then '(ds, rest) ← digits n' s'; Some (String c ds, rest)
          else None
      end
  end.

(** [graphcast_(\d{4})_(\d{2})_(\d{2})] at the start of [s]. *)
Definition match_date_at (s : string) : option (string * string * string) :=
  s1 ← expect "graphcast_" s;
  '(y, s2) ← digits 4 s1;
  s3 ← expect "_" s2;
  '(m, s4) ← digits 2 s3;
  s5 ← expect "_" s4;
  '(d, _) ← digits 2 s5;
  Some (y, m, d).

(** [re.search(r"graphcast_(\d{4})_(\d{2})_(\d{2})", input_file)] followed
    by [match.groups()]: the pattern has one way to match at a position, so
    the search is the first position at which it matches. *)
Fixpoint re_search_date (input_file : string) : option (string * string * string) :=
  match match_date_at input_file with
  | Some g => Some g
  | None =>
      match input_file with
      | EmptyString => None
      | String _ rest => re_search_date rest
      end
  end.

(** [re.match(f"graphcast_{year}_\d{{2}}_\d{{2}}\\.nc", f)]: anchored at the
    start of [f] only.  [year] is pasted into the pattern; the model is the
    pattern's meaning for a [year] without regex metacharacters, which then
    stands for itself. *)
Definition re_match_year (year f : string) : bool :=
  bool_decide (is_Some (
    s1 ← expect ("graphcast_" +:+ year +:+ "_") f;
    '(_, s2) ← digits 2 s1;
    s3 ← expect "_" s2;
    '(_, s4) ← digits 2 s3;
    expect ".nc" s4)).

(** ** VariableClassifier *)

Definition pressure_vars : list string := ["q"; "t"; "z"; "u"; "v"; "w"].
Definition pressure_levels : list Z :=
  [50; 100; 150; 200; 250; 300; 400; 500; 600; 700; 850; 925; 1000].
Definition surface_var_names : list string := ["u10m"; "v10m"; "t2m"; "msl"; "tp06"].

Inductive Classification : Type :=
  | PressureLevel (base : string) (level : Z)
  | Surface
  | Unrecognized.

(** The inner loop [for level in pressure_levels], left at the first level
    with [var_name == f"{base_var}{level}"]. *)
Fixpoint find_level (var_name base_var : string) (levels : list Z) : option Z :=
  match levels with
  | [] => None
  | level :: rest =>
      if decide (var_name = base_var +:+ pretty level) then Some level
      else find_level var_name base_var rest
  end.

(** The outer loop [for base_var in pressure_vars], left as soon as the
    inner loop has set [is_pressure_level]. *)
Fixpoint find_pressure (var_name : string) (bases : list string) : option (string * Z) :=
  match bases with
  | [] => None
  | base_var :: rest =>
      match find_level var_name base_var pressure_levels with
      | Some level => Some (base_var, level)
      | None => find_pressure var_name rest
      end
  end.

Definition classify (var_name : string) : Classification :=
  match find_pressure var_name pressure_vars with
  | Some (base_var, level) => PressureLevel base_var level
  | None =>
      if decide (var_name ∈ surface_var_names) then Surface else Unrecognized
  end.

(** ** Outside world *)

(** What a call into a library gives back: a value, or an exception with
    its message. *)
Inductive result (A : Type) : Type :=
  | Ok (a : A)
  | Raise (e : string).
Arguments Ok {A} a.
Arguments Raise {A} e.

(** How a function of the script ends. *)
Inductive outcome : Type :=
  | Returned
  | Raised (e : string).

(** What the script reads from outside. *)
Record Env : Type := mkEnv {
  (** [xr.open_dataset(path, lock=False)] *)
  xr_open_dataset : string → result Dataset;
  (** [xr.concat(data_arrays, dim=...)] *)
  xr_concat : list DataArray → string → result DataArray;
  (** [os.listdir(input_dir)] *)
  os_listdir : string → result (list string);
  (** [os.getcwd()] *)
  os_getcwd : string;
  (** [datetime.utcnow().strftime("%Y-%m-%dT%H:%M:%SZ")] at the n-th
      reading of the clock *)
  utcnow : nat → string;
  (** [multiprocessing.cpu_count()] *)
  cpu_count : nat
}.

(** The aggregated variable of one quantity: the concatenated array with
    its [plevel] coordinate. *)
Record PressureVariable : Type := mkPressureVariable {
  pv_array : DataArray;
  pv_plevel : list Z;
  pv_plevel_attrs : gmap string attr_val
}.

Inductive OutputDataset : Type :=
  | SurfaceDataset (data_vars : gmap string DataArray)
      (attrs : gmap string attr_val)
  | PressureDataset (name : string) (combined_var : PressureVariable)
      (attrs : gmap string attr_val).

Definition out_attrs (o : OutputDataset) : gmap string attr_val :=
  match o with
  | SurfaceDataset _ a => a
  | PressureDataset _ _ a => a
  end.

(** One call of [to_netcdf]. *)
Record NetcdfWrite : Type := mkNetcdfWrite {
  nc_path : string;
  nc_dataset : OutputDataset;
  nc_encoding : gmap string (gmap string attr_val)
}.

(** What the script has done to the outside so far. *)
Record World : Type := mkWorld {
  w_stdout : list string;
  (** the records appended to [skipped_files.txt] *)
  w_skipped_files : list string;
  (** the calls of [to_netcdf], oldest first *)
  w_netcdf : list NetcdfWrite;
  (** the directories made by [os.makedirs] *)
  w_dirs : list string;
  (** how often the clock has been read *)
  w_clock : nat
}.

Definition print (line : string) (w : World) : World :=
  {| w_stdout := w_stdout w ++ [line];
     w_skipped_files := w_skipped_files w;
     w_netcdf := w_netcdf w;
     w_dirs := w_dirs w;
     w_clock := w_clock w |}.

(** [open("skipped_files.txt", "a")] and one [write]. *)
Definition skip_log_write (record : string) (w : World) : World :=
  {| w_stdout := w_stdout w;
     w_skipped_files := w_skipped_files w ++ [record];
     w_netcdf := w_netcdf w;
     w_dirs := w_dirs w;
     w_clock := w_clock w |}.

Definition to_netcdf (path : string) (dataset : OutputDataset)
    (encoding : gmap string (gmap string attr_val)) (w : World) : World :=
  {| w_stdout := w_stdout w;
     w_skipped_files := w_skipped_files w;
     w_netcdf := w_netcdf w ++ [mkNetcdfWrite path dataset encoding];
     w_dirs := w_dirs w;
     w_clock := w_clock w |}.

(** [os.makedirs(d, exist_ok=True)]. *)
Definition makedirs (d : string) (w : World) : World :=
  {| w_stdout := w_stdout w;
     w_skipped_files := w_skipped_files w;
     w_netcdf := w_netcdf w;
     w_dirs := if decide (d ∈ w_dirs w) then w_dirs w else w_dirs w ++ [d];
     w_clock := w_clock w |}.

Definition tick (n : nat) (w : World) : World :=
  {| w_stdout := w_stdout w;
     w_skipped_files := w_skipped_files w;
     w_netcdf := w_netcdf w;
     w_dirs := w_dirs w;
     w_clock := (w_clock w + n)%nat |}.

Definition ends_with_slash (s : string) : bool :=
  match last (String.list_ascii_of_string s) with
  | Some c => bool_decide (c = "/"%char)
  | None => false
  end.

(** [os.path.join(a, b)] on POSIX. *)
Definition path_join (a b : string) : string :=
  if String.prefix "/" b then b
  else if bool_decide (a = "") || ends_with_slash a then a +:+ b
  else a +:+ "/" +:+ b.

(** ** MetadataCatalog *)

(** The dictionary built in the [__main__] block. *)
Definition metadata_dict : gmap string (gmap string attr_val) :=
  list_to_map [
    ("lat", list_to_map [("long_name", AStr "Latitude"); ("standard_name", AStr "latitude");
                         ("units", AStr "degrees_north"); ("axis", AStr "Y")]);
    ("lon", list_to_map [("long_name", AStr "Longitude"); ("standard_name", AStr "longitude");
                         ("units", AStr "degrees_east"); ("axis", AStr "X")]);
    ("msl", list_to_map [("long_name", AStr "Mean Sea Level Pressure");
                         ("standard_name", AStr "air_pressure_at_mean_sea_level");
                         ("units", AStr "Pa")]);
    ("t2m", list_to_map [("long_name", AStr "2m Temperature");
                         ("standard_name", AStr "air_temperature"); ("units", AStr "K")]);
    ("v10m", list_to_map [("long_name", AStr "10m Meridional Wind");
                          ("standard_name", AStr "northward_wind"); ("units", AStr "m s-1")]);
    ("u10m", list_to_map [("long_name", AStr "10m Zonal Wind");
                          ("standard_name", AStr "eastward_wind"); ("units", AStr "m s-1")]);
    ("tp06", list_to_map [("long_name", AStr "6-Hour Total Precipitation");
                          ("standard_name", AStr "precipitation_amount"); ("units", AStr "m")])
  ].

(** The [if var == "t": ... elif ...] chain after the concatenation. *)
Definition quantity_attrs (var : string) : gmap string attr_val :=
  if decide (var = "t") then
    list_to_map [("long_name", AStr "Temperature");
                 ("standard_name", AStr "air_temperature"); ("units", AStr "K")]
  else if decide (var = "u") then
    list_to_map [("long_name", AStr "Zonal Wind");
                 ("standard_name", AStr "eastward_wind"); ("units", AStr "m s-1")]
  else if decide (var = "v") then
    list_to_map [("long_name", AStr "Meridional Wind");
                 ("standard_name", AStr "northward_wind"); ("units", AStr "m s-1")]
  else if decide (var = "w") then
    list_to_map [("long_name", AStr "Vertical Wind");
                 ("standard_name", AStr "upward_air_velocity"); ("units", AStr "m s-1")]
  else if decide (var = "z") then
    list_to_map [("long_name", AStr "Geopotential Height");
                 ("standard_name", AStr "geopotential_height"); ("units", AStr "m")]
  else if decide (var = "q") then
    list_to_map [("long_name", AStr "Specific Humidity");
                 ("standard_name", AStr "specific_humidity"); ("units", AStr "kg kg-1")]
  else ∅.

Definition plevel_attrs : gmap string attr_val :=
  list_to_map [("long_name", AStr "Pressure Level");
               ("standard_name", AStr "air_pressure"); ("units", AStr "hPa")].

Definition time_attrs : gmap string attr_val :=
  list_to_map [("long_name", AStr "Time"); ("standard_name", AStr "time");
               ("axis", AStr "T")].

(** The [global_attrs] dictionary; the clock is read once for
    ["creation_date"] and once more for ["history"]. *)
Definition global_attrs (now1 now2 date_str : string) : gmap string attr_val :=
  list_to_map [
    ("institution", AStr "The University of Texas at Austin, Austin, Texas, USA");
    ("institute_id", AStr "UT-Austin");
    ("experiment_id", AStr "ERA5-Based Graphcast Hindcast");
    ("source", AStr "Google Deepmind Graphcast-operational output using ERA5 as initial condition");
    ("model_id", AStr "Graphcast-ERA5");
    ("forcing", AStr "ERA5 Reanalysis Data");
    ("parent_experiment_id", AStr "GraphCast Hindcast");
    ("contact", AStr ("Naveen Sudharsan (naveens@utexas.edu); "
                      +:+ "Manmeet Singh (manmeet.singh@utexas.edu); "
                      +:+ "Zong-Liang Yang (liang@jsg.utexas.edu); "
                      +:+ "Dev Niyogi (dev.niyogi@jsg.utexas.edu)"));
    ("references", AStr "DeepMind GraphCast Model Documentation, ERA5 Reanalysis Data");
    ("product", AStr "AI model 15-day forecast");
    ("experiment", AStr "ERA5-based Graphcast Forecasts");
    ("frequency", AStr "6-hourly");
    ("creation_date", AStr now1);
    ("history", AStr (now2 +:+ " Data processed for NetCDF format"));
    ("project_id", AStr "UT Austin Graphcast Hindcast");
    ("title", AStr ("Graphcast-operational Forecast Data for " +:+ date_str));
    ("modeling_realm", AStr "atmosphere");
    ("realization", AInt 1);
    ("Conventions", AStr "CF-1.8")
  ].

Definition encoding : gmap string (gmap string attr_val) :=
  {[ "time" := list_to_map [("units", AStr "days since 0001-01-01");
                            ("calendar", AStr "proleptic_gregorian")] ]}.

(** ** FileTransformer: enrichment of the coordinates *)

Definition ds_contains (name : string) (ds : Dataset) : bool :=
  bool_decide (is_Some (ds_variables ds !! name)).

(** [ds[name].attrs] rewritten by [f]. *)
Definition ds_alter_attrs (f : gmap string attr_val → gmap string attr_val)
    (name : string) (ds : Dataset) : Dataset :=
  {| ds_variables := alter (da_map_attrs f) name (ds_variables ds);
     ds_data_vars := ds_data_vars ds |}.

(** Lines 36-38; [metadata_dict["lat"]] raises [KeyError] on a dictionary
    without that key. *)
Definition enrich_lat_lon (md : gmap string (gmap string attr_val))
    (ds : Dataset) : result Dataset :=
  if ds_contains "lat" ds && ds_contains "lon" ds then
    match md !! "lat" with
    | None => Raise "KeyError: 'lat'"
    | Some lat_attrs =>
        let ds1 := ds_alter_attrs (λ a, attrs_update a lat_attrs) "lat" ds in
        match md !! "lon" with
        | None => Raise "KeyError: 'lon'"
        | Some lon_attrs =>
            Ok (ds_alter_attrs (λ a, attrs_update a lon_attrs) "lon" ds1)
        end
    end
  else Ok ds.

(** Lines 40-47. *)
Definition enrich_time (ds : Dataset) : Dataset :=
  if ds_contains "time" ds then
    ds_alter_attrs
      (λ a, attrs_update (attrs_pop "calendar" (attrs_pop "units" a)) time_attrs)
      "time" ds
  else ds.

(** ** FileTransformer: the classification loop *)

(** [surface_ds] and [grouped_pressure_data]. *)
Record Collected : Type := mkCollected {
  surface_ds : gmap string DataArray;
  grouped_pressure_data : gmap string (list (Z * DataArray))
}.

(** [{}] and [{var: [] for var in pressure_vars}]. *)
Definition collected_init : Collected :=
  {| surface_ds := ∅;
     grouped_pressure_data := list_to_map ((λ var, (var, [])) <$> pressure_vars) |}.

(** Lines 57-60: [var_data] as it is stored. *)
Definition enrich_var (md : gmap string (gmap string attr_val))
    (var_name : string) (raw : DataArray) : DataArray :=
  let var_data := drop_history_dim raw in
  match md !! var_name with
  | Some a => da_update_attrs a var_data
  | None => var_data
  end.

(** One turn of [for var_name in ds.data_vars], with [ds[var_name]] given. *)
Definition collect_var (md : gmap string (gmap string attr_val))
    (var_name : string) (raw : DataArray) (acc : Collected) : Collected :=
  let var_data := enrich_var md var_name raw in
  match classify var_name with
  | PressureLevel base_var level =>
      {| surface_ds := surface_ds acc;
         grouped_pressure_data :=
           alter (λ g, g ++ [(level, var_data)]) base_var (grouped_pressure_data acc) |}
  | Surface =>
      {| surface_ds := <[var_name := var_data]> (surface_ds acc);
         grouped_pressure_data := grouped_pressure_data acc |}
  | Unrecognized => acc
  end.

(** The loop over the names of [ds.data_vars]; a name of [data_vars] always
    has its variable, a name without one is passed over. *)
Fixpoint collect (md : gmap string (gmap string attr_val))
    (vars : gmap string DataArray) (names : list string) (acc : Collected) : Collected :=
  match names with
  | [] => acc
  | var_name :: rest =>
      match vars !! var_name with
      | Some raw => collect md vars rest (collect_var md var_name raw acc)
      | None => collect md vars rest acc
      end
  end.

(** ** PressureLevelAggregator *)

(** [sorted(level_data)] on a list of [(level, var_data)] tuples.  Tuples are
    ordered by their level; on two equal levels Python goes on to compare
    the two arrays, which is where the model stops ([None]).  Any sort has
    to compare two entries of equal level with each other, so [None] is the
    answer exactly when a level occurs twice. *)
Fixpoint insert_level (x : Z * DataArray) (l : list (Z * DataArray))
    : option (list (Z * DataArray)) :=
  match l with
  | [] => Some [x]
  | y :: rest =>
      if x.1 <? y.1 then Some (x :: y :: rest)
      else if y.1 <? x.1 then r ← insert_level x rest; Some (y :: r)
      else None
  end.

Fixpoint sorted_level_data (level_data : list (Z * DataArray))
    : option (list (Z * DataArray)) :=
  match level_data with
  | [] => Some []
  | x :: rest => s ← sorted_level_data rest; insert_level x s
  end.

(** A value stored as [np.int32]: two's complement on 32 bits. *)
Definition int32 (z : Z) : Z := (z + 2 ^ 31) mod 2 ^ 32 - 2 ^ 31.

(** Lines 114-135 for one quantity [var] with a non-empty [level_data].  A
    sort that ends in the comparison of two arrays is taken to raise; in a
    dataset it does not occur, the levels of a group being pairwise
    different there. *)
Definition aggregate (E : Env) (var : string) (level_data : list (Z * DataArray))
    : result PressureVariable :=
  match sorted_level_data level_data with
  | None => Raise "ValueError"
  | Some pairs =>
      let plevels := pairs.*1 in
      let data_arrays := pairs.*2 in
      match xr_concat E data_arrays "plevel" with
      | Raise e => Raise e
      | Ok combined_var =>
          Ok {| pv_array := da_update_attrs (quantity_attrs var) combined_var;
                pv_plevel := int32 <$> plevels;
                pv_plevel_attrs := attrs_update ∅ plevel_attrs |}
      end
  end.

(** ** FileTransformer: writing *)

Definition nl : string := String "010"%char EmptyString.

(** Lines 104-110.  Building the dataset and writing it are taken to
    succeed. *)
Definition write_surface (output_base_dir date_str : string)
    (attrs : gmap string attr_val) (surface : gmap string DataArray) (w : World) : World :=
  if decide (surface = ∅) then w
  else
    let surface_output_file :=
      path_join output_base_dir ("surface_variables_" +:+ date_str +:+ ".nc") in
    let surface_dataset := SurfaceDataset surface (attrs_update ∅ attrs) in
    let w := to_netcdf surface_output_file surface_dataset encoding w in
    print ("Saved surface variables to " +:+ surface_output_file) w.

(** Lines 112-143: [for var, level_data in grouped_pressure_data.items()],
    whose keys come in the order of [pressure_vars].  An exception of the
    sort or of the concatenation leaves the loop and the function; the
    write itself is taken to succeed. *)
Fixpoint write_pressure (E : Env) (output_base_dir date_str : string)
    (attrs : gmap string attr_val) (grouped : gmap string (list (Z * DataArray)))
    (vars : list string) (w : World) : World * outcome :=
  match vars with
  | [] => (w, Returned)
  | var :: rest =>
      match grouped !!! var with
      | [] => write_pressure E output_base_dir date_str attrs grouped rest w
      | level_data =>
          match aggregate E var level_data with
          | Raise e => (w, Raised e)
          | Ok combined_var =>
              let pressure_dataset :=
                PressureDataset var combined_var (attrs_update ∅ attrs) in
              let pressure_output_file :=
                path_join output_base_dir
                  (var +:+ "_pressure_levels_" +:+ date_str +:+ ".nc") in
              let w := to_netcdf pressure_output_file pressure_dataset encoding w in
              let w := print ("Saved " +:+ var +:+ " pressure-level variables to "
                              +:+ pressure_output_file) w in
              write_pressure E output_base_dir date_str attrs grouped rest w
          end
      end
  end.

(** Lines 36-145: what happens to a dataset once it is open. *)
Definition transform (E : Env) (output_base_dir date_str : string)
    (md : gmap string (gmap string attr_val)) (ds : Dataset) (w : World)
    : World * outcome :=
  match enrich_lat_lon md ds with
  | Raise e => (w, Raised e)
  | Ok ds =>
      let ds := enrich_time ds in
      let c := collect md (ds_variables ds) (ds_data_vars ds) collected_init in
      let attrs := global_attrs (utcnow E (w_clock w)) (utcnow E (S (w_clock w)))
                     date_str in
      let w := tick 2 w in
      let w := write_surface output_base_dir date_str attrs (surface_ds c) w in
      write_pressure E output_base_dir date_str attrs (grouped_pressure_data c)
        pressure_vars w
  end.

Definition process_single_netcdf (E : Env) (input_file input_dir output_base_dir : string)
    (md : gmap string (gmap string attr_val)) (w : World) : World * outcome :=
  let input_path := path_join input_dir input_file in
  match re_search_date input_file with
  | None => (w, Returned)
  | Some (file_year, month, day) =>
      let date_str := file_year +:+ "-" +:+ month +:+ "-" +:+ day in
      let w := print ("Processing file: " +:+ input_file +:+ " (" +:+ date_str +:+ ")") w in
      match xr_open_dataset E input_path with
      | Raise e =>
          let w := print ("❌ Skipping " +:+ input_file +:+ " due to read error: " +:+ e) w in
          let w := skip_log_write (input_file +:+ " - " +:+ e +:+ nl) w in
          (w, Returned)
      | Ok ds => transform E output_base_dir date_str md ds w
      end
  end.

(** ** ParallelDispatcher *)

(** [sorted(files)] on file names. *)
Fixpoint insert_name (x : string) (l : list string) : list string :=
  match l with
  | [] => [x]
  | y :: rest => if String.leb x y then x :: y :: rest else y :: insert_name x rest
  end.

Definition sorted_names (l : list string) : list string :=
  foldr insert_name [] l.

(** The comprehension and the sort of line 151. *)
Definition discover (year : string) (listing : list string) : list string :=
  sorted_names (filter (λ f, re_match_year year f = true) listing).

(** The chunk length [Pool.starmap] picks for [n] tasks. *)
Definition chunksize (n processes : nat) : nat :=
  let q := (n / (processes * 4))%nat in
  if (n mod (processes * 4) =? 0)%nat then q else S q.

Fixpoint chunks (fuel size : nat) (l : list string) : list (list string) :=
  match fuel, l with
  | O, _ | _, [] => []
  | S fuel', _ => take size l :: chunks fuel' size (drop size l)
  end.

(** One chunk is worked off by one worker, file after file; an exception
    ends the chunk. *)
Fixpoint run_chunk (E : Env) (input_dir output_base_dir : string)
    (md : gmap string (gmap string attr_val)) (files : list string) (w : World)
    : World * outcome :=
  match files with
  | [] => (w, Returned)
  | f :: rest =>
      match process_single_netcdf E f input_dir output_base_dir md w with
      | (w', Returned) => run_chunk E input_dir output_base_dir md rest w'
      | (w', Raised e) => (w', Raised e)
      end
  end.

(** [pool.starmap] in the schedule that takes the chunks one after the
    other.  Every chunk is run; the first exception is raised at the end. *)
Fixpoint run_chunks (E : Env) (input_dir output_base_dir : string)
    (md : gmap string (gmap string attr_val)) (cs : list (list string)) (w : World)
    : World * outcome :=
  match cs with
  | [] => (w, Returned)
  | c :: rest =>
      let '(w1, o1) := run_chunk E input_dir output_base_dir md c w in
      let '(w2, o2) := run_chunks E input_dir output_base_dir md rest w1 in
      (w2, match o1 with Returned => o2 | Raised e => Raised e end)
  end.

Definition process_netcdf_for_year (E : Env) (year input_dir : string)
    (md : gmap string (gmap string attr_val)) (w : World) : World * outcome :=
  let output_base_dir := path_join (os_getcwd E) year in
  let w := makedirs output_base_dir w in
  match os_listdir E input_dir with
  | Raise e => (w, Raised e)
  | Ok listing =>
      let files := discover year listing in
      match files with
      | [] =>
          (print ("No NetCDF files found for the year " +:+ year +:+ " in " +:+ input_dir) w,
           Returned)
      | _ =>
          let processes := Nat.min 4 (cpu_count E) in
          if (processes =? 0)%nat
          then (w, Raised "ValueError: Number of processes must be at least 1")
          else
            run_chunks E input_dir output_base_dir md
              (chunks (length files) (chunksize (length files) processes) files) w
      end
  end.

(** ** Sample inputs *)

(** A concatenation that accepts arrays of one shape and rejects a list
    whose arrays disagree in shape. *)
Definition concat_same_shape (arrays : list DataArray) (dim : string)
    : result DataArray :=
  match arrays with
  | [] => Raise "ValueError: must supply at least one object to concatenate"
  | a :: rest =>
      if forallb (λ b, bool_decide (da_dims b = da_dims a)) rest
      then Ok {| da_dims := (dim, length arrays) :: da_dims a;
                 da_attrs := da_attrs a;
                 da_values := concat (da_values <$> arrays) |}
      else Raise "ValueError: shapes disagree"
  end.

Definition grid (lat lon : nat) (cells : list Z) : DataArray :=
  {| da_dims := [("time", 1%nat); ("lat", lat); ("lon", lon)];
     da_attrs := ∅;
     da_values := cells |}.

Definition axis (name : string) (n : nat) (a : list (string * attr_val)) : DataArray :=
  {| da_dims := [(name, n)]; da_attrs := list_to_map a; da_values := [] |}.

(** The file of the end-to-end scenario: [t500], [t850], [u10m] and [foo]. *)
Definition sample_ds : Dataset :=
  {| ds_variables := list_to_map [
       ("lat", axis "lat" 2 []); ("lon", axis "lon" 2 []);
       ("time", axis "time" 1 [("units", AStr "hours since 1900-01-01");
                               ("calendar", AStr "gregorian")]);
       ("t850", grid 2 2 [5; 6; 7; 8]); ("t500", grid 2 2 [1; 2; 3; 4]);
       ("u10m", grid 2 2 [9; 9; 9; 9]); ("foo", grid 2 2 [0; 0; 0; 0])];
     ds_data_vars := ["t850"; "t500"; "u10m"; "foo"] |}.

(** A file whose [t500] and [t850] disagree in shape, next to a sound
    [u500] and [u10m]. *)
Definition mismatch_ds : Dataset :=
  {| ds_variables := list_to_map [
       ("lat", axis "lat" 2 []); ("lon", axis "lon" 2 []);
       ("time", axis "time" 1 []);
       ("t500", grid 2 2 [1; 2; 3; 4]); ("t850", grid 2 3 [1; 2; 3; 4; 5; 6]);
       ("u500", grid 2 2 [1; 1; 1; 1]); ("u10m", grid 2 2 [9; 9; 9; 9])];
     ds_data_vars := ["t500"; "t850"; "u500"; "u10m"] |}.

Definition sample_env : Env :=
  {| xr_open_dataset := λ path,
       if decide (path = "/in/graphcast_2024_01_01.nc") then Ok sample_ds
       else if decide (path = "/in/graphcast_2024_01_02.nc") then Ok mismatch_ds
       else Raise "NetCDF: Unknown file format";
     xr_concat := concat_same_shape;
     os_listdir := λ d,
       if decide (d = "/in")
       then Ok ["graphcast_2024_01_03.nc"; "notes.txt"; "graphcast_2024_01_01.nc";
                "graphcast_24_01_01.nc"; "graphcast_2024_01_02.nc"]
       else if decide (d = "/empty") then Ok []
       else Raise "FileNotFoundError";
     os_getcwd := "/work";
     utcnow := λ n, "2025-01-01T00:00:0" +:+ pretty n +:+ "Z";
     cpu_count := 8 |}.

Definition world0 : World :=
  {| w_stdout := []; w_skipped_files := []; w_netcdf := []; w_dirs := []; w_clock := 0 |}.

(** ** Vocabulary of the properties *)

(** The pattern [graphcast_YYYY_MM_DD] occurs in [f] after the prefix [pre],
    with the digit groups [y], [m] and [d]. *)
Definition date_occurrence (f pre y m d post : string) : Prop :=
  f = pre +:+ "graphcast_" +:+ y +:+ "_" +:+ m +:+ "_" +:+ d +:+ post ∧
  (String.length y = 4%nat ∧ all_digits y = true) ∧
  (String.length m = 2%nat ∧ all_digits m = true) ∧
  (String.length d = 2%nat ∧ all_digits d = true).


#[global] Instance Classification_eq_dec : EqDecision Classification.
Proof. solve_decision. Defined.

(** [name] is [{base}{level}] for a base and a level of the two tables. *)
Definition is_pressure_name (name : string) : Prop :=
  ∃ base level, base ∈ pressure_vars ∧ level ∈ pressure_levels ∧
    name = base +:+ pretty level.

(** What the loop has collected comes from the names it has seen: a key of
    [surface_ds] is a surface name, an entry of a group stands for a
    pressure-level name. *)
Definition collected_from (seen : list string) (c : Collected) : Prop :=
  (∀ name, is_Some (surface_ds c !! name) →
     name ∈ surface_var_names ∧ name ∈ seen) ∧
  (∀ base g level a, grouped_pressure_data c !! base = Some g → (level, a) ∈ g →
     base ∈ pressure_vars ∧ level ∈ pressure_levels ∧
     base +:+ pretty level ∈ seen).

Definition level_lt (x y : Z * DataArray) : Prop := x.1 < y.1.


(** The write of the surface file, if there is one. *)
Definition surface_writes (output_base_dir date_str : string)
    (attrs : gmap string attr_val) (surface : gmap string DataArray) : list NetcdfWrite :=
  if decide (surface = ∅) then []
  else [ {| nc_path := path_join output_base_dir
                         ("surface_variables_" +:+ date_str +:+ ".nc");
            nc_dataset := SurfaceDataset surface attrs;
            nc_encoding := encoding |} ].

(** [n] is the write of the pressure-level file of the quantity [var]. *)
Definition pressure_write (E : Env) (output_base_dir date_str : string)
    (attrs : gmap string attr_val) (grouped : gmap string (list (Z * DataArray)))
    (var : string) (n : NetcdfWrite) : Prop :=
  ∃ combined_var,
    grouped !!! var ≠ [] ∧
    aggregate E var (grouped !!! var) = Ok combined_var ∧
    n = {| nc_path := path_join output_base_dir
                        (var +:+ "_pressure_levels_" +:+ date_str +:+ ".nc");
           nc_dataset := PressureDataset var combined_var attrs;
           nc_encoding := encoding |}.

(** The global attributes of the files of one input file: the clock is read
    twice, at the readings [w_clock w] and [w_clock w + 1]. *)
Definition file_attrs (E : Env) (date_str : string) (w : World) : gmap string attr_val :=
  global_attrs (utcnow E (w_clock w)) (utcnow E (S (w_clock w))) date_str.

(** Every stored array is the enriched variable of the dataset under its
    name. *)
Definition collected_values (md : gmap string (gmap string attr_val))
    (vars : gmap string DataArray) (c : Collected) : Prop :=
  (∀ name v, surface_ds c !! name = Some v →
     ∃ raw, vars !! name = Some raw ∧ v = enrich_var md name raw) ∧
  (∀ base g level v, grouped_pressure_data c !! base = Some g → (level, v) ∈ g →
     ∃ raw, vars !! (base +:+ pretty level) = Some raw ∧
       v = enrich_var md (base +:+ pretty level) raw).

(** The two kinds of output path. *)
Definition surface_path (output_base_dir date_str : string) : string :=
  path_join output_base_dir ("surface_variables_" +:+ date_str +:+ ".nc").

Definition pressure_path (output_base_dir date_str var : string) : string :=
  path_join output_base_dir (var +:+ "_pressure_levels_" +:+ date_str +:+ ".nc").

(** The quantities of [vars] that have data, in the order of [vars]. *)
Definition with_data (grouped : gmap string (list (Z * DataArray)))
    (vars : list string) : list string :=
  filter (λ var, grouped !!! var ≠ []) vars.

(** A written dataset is sound: a surface dataset is not empty and all its
    variables have surface names; a pressure-level dataset is named by one of
    the six quantities and its [plevel] coordinate is a non-empty, strictly
    ascending list of levels of the table. *)
Definition sound_output (o : OutputDataset) : Prop :=
  match o with
  | SurfaceDataset data_vars _ =>
      data_vars ≠ ∅ ∧
      ∀ name, is_Some (data_vars !! name) → name ∈ surface_var_names
  | PressureDataset name combined_var _ =>
      name ∈ pressure_vars ∧
      pv_plevel combined_var ≠ [] ∧
      StronglySorted Z.lt (pv_plevel combined_var) ∧
      Forall (λ level, level ∈ pressure_levels) (pv_plevel combined_var)
  end.


(** * Properties *)

(** ** Strings and the two patterns *)

#[local] Arguments String.append !_ _ / : simpl nomatch.

(** Closed decidable goals are settled by evaluation. *)
Ltac by_decide := apply (bool_decide_unpack _); by vm_compute.

Lemma append_assoc (a b c : string) : (a +:+ b) +:+ c = a +:+ (b +:+ c).
Proof. induction a as [|x a IH]; simpl; [done | by rewrite IH]. Qed.

Lemma append_length (a b : string) :
  String.length (a +:+ b) = (String.length a + String.length b)%nat.
Proof. induction a as [|x a IH]; simpl; [done | by rewrite IH]. Qed.

Lemma expect_spec (lit s r : string) : expect lit s = Some r ↔ s = lit +:+ r.
Proof.
  revert s. induction lit as [|a lit IH]; intros s; simpl.
  - split; congruence.
  - destruct s as [|b s]; [split; discriminate |].
    case_decide as Hab.
    + subst b. rewrite IH. split; congruence.
    + split; [discriminate | congruence].
Qed.

Lemma digits_spec (n : nat) (s ds r : string) :
  digits n s = Some (ds, r) ↔
  s = ds +:+ r ∧ String.length ds = n ∧ all_digits ds = true.
Proof.
  revert s ds r. induction n as [|n IH]; intros s ds r; simpl.
  - split.
    + intros [= <- <-]. done.
    + intros (-> & Hlen & _). destruct ds; [done | discriminate].
  - destruct s as [|c s].
    { split; [discriminate |]. intros (H & Hlen & _).
      destruct ds; discriminate. }
    destruct (is_digit c) eqn:Hc.
    + destruct (digits n s) as [[ds' r']|] eqn:Hd; simpl.
      * pose proof Hd as Hd0. apply IH in Hd as (-> & Hlen & Hall). split.
        -- intros [= <- <-]. simpl. by rewrite Hc, Hall, Hlen.
        -- intros (Heq & Hl & Ha). destruct ds as [|c' ds]; [discriminate |].
           simpl in *. injection Heq as <- Heq. injection Hl as Hl.
           apply andb_true_iff in Ha as [_ Ha].
           assert (digits n (ds' +:+ r') = Some (ds, r)) as Hd' by (apply IH; done).
           congruence.
      * split; [discriminate |]. intros (Heq & Hl & Ha).
        destruct ds as [|c' ds]; [discriminate |]. simpl in *.
        injection Heq as <- Heq. injection Hl as Hl.
        apply andb_true_iff in Ha as [_ Ha].
        assert (digits n s = Some (ds, r)) as Hd' by (apply IH; done).
        congruence.
    + split; [discriminate |]. intros (Heq & Hl & Ha).
      destruct ds as [|c' ds]; [discriminate |]. simpl in *.
      injection Heq as <- Heq. apply andb_true_iff in Ha as [Ha _]. congruence.
Qed.

Lemma expect_app (lit r : string) : expect lit (lit +:+ r) = Some r.
Proof. by apply expect_spec. Qed.

Lemma digits_app (n : nat) (ds r : string) :
  String.length ds = n → all_digits ds = true → digits n (ds +:+ r) = Some (ds, r).
Proof. intros. by apply digits_spec. Qed.

Lemma bind_Some {A B : Type} (x : A) (f : A → option B) : Some x ≫= f = f x.
Proof. done. Qed.

#[local] Arguments digits : simpl never.
#[local] Arguments expect : simpl never.

Lemma match_date_at_spec (s y m d : string) :
  match_date_at s = Some (y, m, d) ↔ ∃ post, date_occurrence s "" y m d post.
Proof.
  unfold match_date_at, date_occurrence. split.
  - intros H.
    destruct (expect "graphcast_" s) as [s1|] eqn:H1; simpl in H; [|done].
    destruct (digits 4 s1) as [[y' s2]|] eqn:H2; simpl in H; [|done].
    destruct (expect "_" s2) as [s3|] eqn:H3; simpl in H; [|done].
    destruct (digits 2 s3) as [[m' s4]|] eqn:H4; simpl in H; [|done].
    destruct (expect "_" s4) as [s5|] eqn:H5; simpl in H; [|done].
    destruct (digits 2 s5) as [[d' s6]|] eqn:H6; simpl in H; [|done].
    injection H as -> -> ->.
    apply expect_spec in H1, H3, H5. apply digits_spec in H2, H4, H6.
    destruct H2 as (-> & ? & ?), H4 as (-> & ? & ?), H6 as (-> & ? & ?).
    subst. exists s6. done.
  - intros (post & -> & (Hy1 & Hy2) & (Hm1 & Hm2) & (Hd1 & Hd2)).
    change ("" +:+ "graphcast_" +:+ y +:+ "_" +:+ m +:+ "_" +:+ d +:+ post)
      with ("graphcast_" +:+ y +:+ "_" +:+ m +:+ "_" +:+ d +:+ post).
    rewrite expect_app, bind_Some. cbv beta iota.
    rewrite (digits_app 4) by done. rewrite bind_Some. cbv beta iota.
    rewrite expect_app, bind_Some. cbv beta iota.
    rewrite (digits_app 2) by done. rewrite bind_Some. cbv beta iota.
    rewrite expect_app, bind_Some. cbv beta iota.
    rewrite (digits_app 2) by done. rewrite bind_Some. done.
Qed.









Lemma re_search_date_at_start (f : string) (g : string * string * string) :
  match_date_at f = Some g → re_search_date f = Some g.
Proof. intros H. destruct f; [by vm_compute in H | simpl; by rewrite H]. Qed.

(** What the discovery pattern accepts, for a year of four digits, starts
    with a date the transformer's pattern finds. *)
Lemma re_match_year_date (year f : string) :
  String.length year = 4%nat → all_digits year = true →
  re_match_year year f = true →
  ∃ month day, match_date_at f = Some (year, month, day).
Proof.
  intros Hlen Hdig H. unfold re_match_year in H.
  apply bool_decide_eq_true in H as [rest H].
  destruct (expect ("graphcast_" +:+ year +:+ "_") f) as [s1|] eqn:H1;
    simpl in H; [|done].
  destruct (digits 2 s1) as [[m s2]|] eqn:H2; simpl in H; [|done].
  destruct (expect "_" s2) as [s3|] eqn:H3; simpl in H; [|done].
  destruct (digits 2 s3) as [[d s4]|] eqn:H4; simpl in H; [|done].
  apply expect_spec in H1, H3, H. apply digits_spec in H2, H4.
  destruct H2 as (-> & ? & ?), H4 as (-> & ? & ?). subst.
  exists m, d. apply match_date_at_spec. exists (".nc" +:+ rest).
  split; [|done].
  rewrite !append_assoc. done.
Qed.

Lemma elem_of_insert_name (x y : string) (l : list string) :
  x ∈ insert_name y l ↔ x = y ∨ x ∈ l.
Proof.
  induction l as [|z l IH]; simpl.
  - rewrite list_elem_of_singleton, elem_of_nil. tauto.
  - destruct (String.leb y z); rewrite !elem_of_cons; [tauto |].
    rewrite IH. tauto.
Qed.

Lemma elem_of_sorted_names (x : string) (l : list string) :
  x ∈ sorted_names l ↔ x ∈ l.
Proof.
  unfold sorted_names. induction l as [|y l IH]; simpl; [done |].
  rewrite elem_of_insert_name, IH, elem_of_cons. tauto.
Qed.

Lemma elem_of_discover (year f : string) (listing : list string) :
  f ∈ discover year listing ↔ f ∈ listing ∧ re_match_year year f = true.
Proof.
  unfold discover. rewrite elem_of_sorted_names, list_elem_of_filter. tauto.
Qed.

(** ** Properties of file names *)



(** C9, as the code has it.  For a year of exactly four decimal digits,
    every file name the dispatcher discovers matches the transformer's date
    pattern, at the very start and with that year, so the transformer does
    not take its silent return for it. *)
Theorem C9_discovered_files_match (year : string) (listing : list string) (f : string) :
  String.length year = 4%nat → all_digits year = true →
  f ∈ discover year listing →
  ∃ month day, re_search_date f = Some (year, month, day).
Proof.
  intros Hlen Hdig Hf. apply elem_of_discover in Hf as [_ Hm].
  destruct (re_match_year_date year f Hlen Hdig Hm) as (month & day & H).
  exists month, day. by apply re_search_date_at_start.
Qed.

Lemma C9_discovered_files_match_witness :
  ∃ month day, re_search_date "graphcast_2024_01_03.nc" = Some ("2024", month, day).
Proof.
  apply (C9_discovered_files_match "2024"
           ["graphcast_2024_01_03.nc"; "notes.txt"; "graphcast_24_01_01.nc"]).
  - reflexivity.
  - reflexivity.
  - by_decide.
Defined.

(** C9 as stated fails for a year that is not four digits long: with the
    year [24] the dispatcher discovers [graphcast_24_01_01.nc], which the
    transformer's pattern does not match, and the transformer returns
    without a trace. *)
Lemma C9_counterexample :
  "graphcast_24_01_01.nc" ∈ discover "24" ["graphcast_24_01_01.nc"] ∧
  re_search_date "graphcast_24_01_01.nc" = None ∧
  ∀ w, process_single_netcdf sample_env "graphcast_24_01_01.nc" "/in" "/work/24"
         metadata_dict w = (w, Returned).
Proof.
  split; [by_decide |]. split; reflexivity.
Qed.

(** ** Classification *)

Lemma find_level_Some (var_name base_var : string) (levels : list Z) (level : Z) :
  find_level var_name base_var levels = Some level →
  level ∈ levels ∧ var_name = base_var +:+ pretty level.
Proof.
  induction levels as [|l levels IH]; simpl; [done |].
  case_decide as Heq.
  - intros [= <-]. split; [left | done].
  - intros H. destruct (IH H). split; [by right | done].
Qed.

Lemma find_level_None (var_name base_var : string) (levels : list Z) :
  find_level var_name base_var levels = None ↔
  ∀ level, level ∈ levels → var_name ≠ base_var +:+ pretty level.
Proof.
  induction levels as [|l levels IH]; simpl.
  - split; [|done]. intros _ level H. by apply elem_of_nil in H.
  - case_decide as Heq.
    + split; [done |]. intros H. exfalso. apply (H l); [left | done].
    + rewrite IH. split.
      * intros H level [->|Hin]%elem_of_cons; [done | by apply H].
      * intros H level Hin. apply H. by right.
Qed.

Lemma find_pressure_Some (var_name : string) (bases : list string)
    (base_var : string) (level : Z) :
  find_pressure var_name bases = Some (base_var, level) →
  base_var ∈ bases ∧ level ∈ pressure_levels ∧
  var_name = base_var +:+ pretty level.
Proof.
  induction bases as [|b bases IH]; cbn [find_pressure]; [done |].
  destruct (find_level var_name b pressure_levels) as [l|] eqn:Hl.
  - intros [= <- <-]. apply find_level_Some in Hl as [? ?].
    split; [left | done].
  - intros H. destruct (IH H) as (? & ? & ?). split; [by right | done].
Qed.

Lemma find_pressure_None (var_name : string) (bases : list string) :
  find_pressure var_name bases = None ↔
  ∀ base_var level, base_var ∈ bases → level ∈ pressure_levels →
    var_name ≠ base_var +:+ pretty level.
Proof.
  induction bases as [|b bases IH]; cbn [find_pressure].
  - split; [|done]. intros _ base_var level H. by apply elem_of_nil in H.
  - destruct (find_level var_name b pressure_levels) as [l|] eqn:Hl.
    + split; [done |]. intros H. exfalso.
      apply find_level_Some in Hl as [? ?]. apply (H b l); [left | done | done].
    + rewrite IH. split.
      * intros H base_var level [->|Hin]%elem_of_cons Hlev.
        -- by apply (proj1 (find_level_None _ _ _) Hl).
        -- by apply H.
      * intros H base_var level Hin. apply H. by right.
Qed.

(** The 78 names [{base}{level}] are classified each to its own base and
    level: no two of them are the same string. *)
Lemma classify_pressure_table :
  Forall (λ base, Forall (λ level,
    classify (base +:+ pretty level) = PressureLevel base level) pressure_levels)
    pressure_vars.
Proof. by_decide. Qed.

Lemma classify_surface_table :
  Forall (λ name, classify name = Surface) surface_var_names.
Proof. by_decide. Qed.

Lemma classify_PressureLevel (var_name base_var : string) (level : Z) :
  classify var_name = PressureLevel base_var level ↔
  base_var ∈ pressure_vars ∧ level ∈ pressure_levels ∧
  var_name = base_var +:+ pretty level.
Proof.
  split.
  - unfold classify.
    destruct (find_pressure var_name pressure_vars) as [[b l]|] eqn:Hf.
    + intros [= <- <-]. by apply find_pressure_Some in Hf.
    + case_decide; discriminate.
  - intros (Hb & Hl & ->).
    pose proof classify_pressure_table as H.
    rewrite Forall_forall in H. specialize (H _ Hb).
    rewrite Forall_forall in H. by apply H.
Qed.

Lemma classify_Surface (var_name : string) :
  classify var_name = Surface ↔ var_name ∈ surface_var_names.
Proof.
  split.
  - unfold classify.
    destruct (find_pressure var_name pressure_vars) as [[b l]|]; [discriminate |].
    by case_decide.
  - intros H. pose proof classify_surface_table as Ht.
    rewrite Forall_forall in Ht. by apply Ht.
Qed.

Lemma classify_Unrecognized (var_name : string) :
  classify var_name = Unrecognized ↔
  ¬ is_pressure_name var_name ∧ var_name ∉ surface_var_names.
Proof.
  split.
  - intros H. split.
    + intros (b & l & Hb & Hl & Heq).
      assert (classify var_name = PressureLevel b l) as H'
        by by apply classify_PressureLevel.
      congruence.
    + intros Hs. apply classify_Surface in Hs. congruence.
  - intros [Hp Hs]. unfold classify.
    assert (find_pressure var_name pressure_vars = None) as ->.
    { apply find_pressure_None. intros b l Hb Hl ->. apply Hp. by exists b, l. }
    by case_decide.
Qed.

Lemma pressure_name_not_surface (var_name : string) :
  is_pressure_name var_name → var_name ∉ surface_var_names.
Proof.
  intros (b & l & Hb & Hl & ->) Hs.
  assert (classify (b +:+ pretty l) = PressureLevel b l) as H1
    by by apply classify_PressureLevel.
  apply classify_Surface in Hs. congruence.
Qed.

Lemma collected_from_init : collected_from [] collected_init.
Proof.
  split.
  - intros name [a Ha]. simpl in Ha. by rewrite lookup_empty in Ha.
  - intros base g level a Hg Hin. exfalso.
    unfold collected_init in Hg. simpl in Hg.
    repeat (rewrite lookup_insert in Hg; case_decide;
            [injection Hg as <-; by apply elem_of_nil in Hin |]).
    by rewrite lookup_empty in Hg.
Qed.

Lemma collected_from_mono (seen seen' : list string) (c : Collected) :
  seen ⊆ seen' → collected_from seen c → collected_from seen' c.
Proof.
  intros Hsub [Hs Hg]. split.
  - intros name H. destruct (Hs name H). split; [done | by apply Hsub].
  - intros base g level a H1 H2. destruct (Hg base g level a H1 H2) as (? & ? & ?).
    split; [done |]. split; [done | by apply Hsub].
Qed.

Lemma collect_var_from (md : gmap string (gmap string attr_val))
    (var_name : string) (raw : DataArray) (seen : list string) (acc : Collected) :
  collected_from seen acc →
  collected_from (seen ++ [var_name]) (collect_var md var_name raw acc).
Proof.
  intros Hacc.
  assert (collected_from (seen ++ [var_name]) acc) as [Hs Hg].
  { eapply collected_from_mono; [|done]. intros x Hx. apply elem_of_app. by left. }
  assert (var_name ∈ seen ++ [var_name]) as Hlast.
  { apply elem_of_app. right. by left. }
  unfold collect_var. destruct (classify var_name) as [b l| |] eqn:Hc.
  - apply classify_PressureLevel in Hc as (Hb & Hl & Hname). split; simpl.
    + done.
    + intros base g level a Hlook Hin.
      destruct (decide (b = base)) as [->|Hne].
      * rewrite lookup_alter_eq in Hlook.
        destruct (grouped_pressure_data acc !! base) as [g0|] eqn:Hg0;
          simpl in Hlook; [|done].
        injection Hlook as <-. apply elem_of_app in Hin as [Hin|Hin].
        -- by eapply Hg.
        -- apply list_elem_of_singleton in Hin. injection Hin as -> ->.
           by rewrite <- Hname.
      * rewrite lookup_alter_ne in Hlook by done. by eapply Hg.
  - apply classify_Surface in Hc. split; simpl.
    + intros name H. destruct (decide (var_name = name)) as [<-|Hne]; [done |].
      rewrite lookup_insert_ne in H by done. by apply Hs.
    + done.
  - done.
Qed.

Lemma collect_from (md : gmap string (gmap string attr_val))
    (vars : gmap string DataArray) (names seen : list string) (acc : Collected) :
  collected_from seen acc →
  collected_from (seen ++ names) (collect md vars names acc).
Proof.
  revert seen acc. induction names as [|n names IH]; intros seen acc Hacc; simpl.
  - by rewrite app_nil_r.
  - replace (seen ++ n :: names) with ((seen ++ [n]) ++ names)
      by by rewrite <- app_assoc.
    destruct (vars !! n) as [raw|].
    + apply IH. by apply collect_var_from.
    + apply IH. eapply collected_from_mono; [|done].
      intros x Hx. apply elem_of_app. by left.
Qed.

(** C1. Classification is a function with three outcomes, and each outcome
    has its names: [PressureLevel base level] exactly for [{base}{level}]
    with base and level from the two tables, [Surface] exactly for the five
    surface names, [Unrecognized] exactly for all other names.  A variable
    with an unrecognized name leaves the collected variables as they were.
    After the loop a key of the surface collection is a surface name of the
    dataset, an entry of a group is a pressure-level name of the dataset,
    and no name is in both. *)
Theorem C1_classification :
  (∀ name base level,
     classify name = PressureLevel base level ↔
     base ∈ pressure_vars ∧ level ∈ pressure_levels ∧
     name = base +:+ pretty level) ∧
  (∀ name, classify name = Surface ↔ name ∈ surface_var_names) ∧
  (∀ name, classify name = Unrecognized ↔
     ¬ is_pressure_name name ∧ name ∉ surface_var_names) ∧
  (∀ md name raw acc,
     classify name = Unrecognized → collect_var md name raw acc = acc) ∧
  (∀ md ds,
     let c := collect md (ds_variables ds) (ds_data_vars ds) collected_init in
     (∀ name, is_Some (surface_ds c !! name) →
        name ∈ surface_var_names ∧ name ∈ ds_data_vars ds ∧
        ¬ is_pressure_name name) ∧
     (∀ base g level a,
        grouped_pressure_data c !! base = Some g → (level, a) ∈ g →
        is_pressure_name (base +:+ pretty level) ∧
        base +:+ pretty level ∈ ds_data_vars ds ∧
        surface_ds c !! (base +:+ pretty level) = None)).
Proof.
  split; [apply classify_PressureLevel |].
  split; [apply classify_Surface |].
  split; [apply classify_Unrecognized |].
  split.
  { intros md name raw acc H. unfold collect_var. by rewrite H. }
  intros md ds c.
  destruct (collect_from md (ds_variables ds) (ds_data_vars ds) [] collected_init
              collected_from_init) as [Hs Hg].
  fold c in Hs, Hg. simpl in Hs, Hg. split.
  - intros name H. destruct (Hs name H) as [H1 H2].
    split; [done |]. split; [done |].
    intros Hp. by apply pressure_name_not_surface in Hp.
  - intros base g level a Hlook Hin.
    destruct (Hg base g level a Hlook Hin) as (Hb & Hl & Hseen).
    assert (is_pressure_name (base +:+ pretty level)) as Hp by by exists base, level.
    split; [done |]. split; [done |].
    destruct (surface_ds c !! (base +:+ pretty level)) as [x|] eqn:Hx; [|done].
    exfalso. destruct (Hs (base +:+ pretty level)) as [Hsurf _]; [by eexists |].
    by apply pressure_name_not_surface in Hp.
Qed.

Lemma C1_classification_witness :
  classify "t500" = PressureLevel "t" 500 ∧
  classify "tp06" = Surface ∧
  classify "foo" = Unrecognized ∧
  surface_ds (collect metadata_dict (ds_variables sample_ds) (ds_data_vars sample_ds)
                collected_init) !! "t500" = None.
Proof.
  destruct C1_classification as (Hp & Hs & Hu & _ & Hloop).
  split; [|split; [|split]].
  - apply Hp. repeat split; by_decide.
  - apply Hs. by_decide.
  - reflexivity.
  - destruct (Hloop metadata_dict sample_ds) as [_ Hg].
    apply (Hg "t" [(850, enrich_var metadata_dict "t850" (grid 2 2 [5; 6; 7; 8]));
                   (500, enrich_var metadata_dict "t500" (grid 2 2 [1; 2; 3; 4]))]
              500 (enrich_var metadata_dict "t500" (grid 2 2 [1; 2; 3; 4]))).
    + by vm_compute.
    + right. left.
Defined.

(** ** Aggregation *)

Lemma insert_level_Some (x : Z * DataArray) (l r : list (Z * DataArray)) :
  insert_level x l = Some r → StronglySorted level_lt l →
  r ≡ₚ x :: l ∧ StronglySorted level_lt r.
Proof.
  revert r. induction l as [|y l IH]; intros r; simpl.
  - intros [= <-] _. split; [done |]. repeat constructor.
  - intros H Hsorted. apply StronglySorted_cons in Hsorted as [Hy Hl].
    destruct (x.1 <? y.1) eqn:Hxy.
    + injection H as <-. split; [done |]. apply Z.ltb_lt in Hxy.
      constructor; [by constructor |]. constructor; [done |].
      eapply Forall_impl; [exact Hy |]. unfold level_lt. intros; simpl in *; lia.
    + destruct (y.1 <? x.1) eqn:Hyx; [|done].
      destruct (insert_level x l) as [r'|] eqn:Hins; simpl in H; [|done].
      injection H as <-. destruct (IH r' eq_refl Hl) as [Hperm Hr'].
      split.
      * rewrite Hperm. apply Permutation_swap.
      * constructor; [done |]. rewrite Hperm. constructor; [|done].
        by apply Z.ltb_lt in Hyx.
Qed.


Lemma insert_level_dup (x : Z * DataArray) (l : list (Z * DataArray)) :
  StronglySorted level_lt l → x.1 ∈ l.*1 → insert_level x l = None.
Proof.
  induction l as [|y l IH]; simpl.
  - intros _ H. by apply elem_of_nil in H.
  - intros Hsorted Hin. apply StronglySorted_cons in Hsorted as [Hy Hl].
    apply elem_of_cons in Hin as [Heq|Hin].
    + rewrite Heq. by rewrite !Z.ltb_irrefl.
    + assert (y.1 < x.1) as Hlt.
      { apply list_elem_of_fmap in Hin as (z & -> & Hz).
        rewrite Forall_forall in Hy. by apply Hy. }
      assert ((x.1 <? y.1) = false) as -> by (apply Z.ltb_ge; lia).
      assert ((y.1 <? x.1) = true) as -> by by apply Z.ltb_lt.
      by rewrite IH.
Qed.


Lemma sorted_level_data_Some (l s : list (Z * DataArray)) :
  sorted_level_data l = Some s → s ≡ₚ l ∧ StronglySorted level_lt s.
Proof.
  revert s. induction l as [|x l IH]; intros s; simpl.
  - intros [= <-]. split; [done | constructor].
  - destruct (sorted_level_data l) as [s'|]; simpl; [|done].
    destruct (IH s' eq_refl) as [Hperm Hsorted]. intros H.
    destruct (insert_level_Some _ _ _ H Hsorted) as [Hperm' Hsorted'].
    split; [by rewrite Hperm', Hperm | done].
Qed.




Lemma int32_pressure_levels :
  Forall (λ level, int32 level = level) pressure_levels.
Proof. by_decide. Qed.






(** ** What a run writes *)

Lemma attrs_update_empty (a : gmap string attr_val) : attrs_update ∅ a = a.
Proof. unfold attrs_update. by rewrite (right_id_L ∅ (∪)). Qed.

Lemma write_surface_frame (output_base_dir date_str : string)
    (attrs : gmap string attr_val) (surface : gmap string DataArray) (w : World) :
  let w' := write_surface output_base_dir date_str attrs surface w in
  w_netcdf w' = w_netcdf w ++ surface_writes output_base_dir date_str attrs surface ∧
  w_skipped_files w' = w_skipped_files w ∧ w_dirs w' = w_dirs w ∧
  w_clock w' = w_clock w.
Proof.
  unfold write_surface, surface_writes. case_decide; simpl.
  - by rewrite app_nil_r.
  - by rewrite attrs_update_empty.
Qed.

Lemma write_pressure_frame (E : Env) (output_base_dir date_str : string)
    (attrs : gmap string attr_val) (grouped : gmap string (list (Z * DataArray)))
    (vars : list string) (w : World) :
  let w' := (write_pressure E output_base_dir date_str attrs grouped vars w).1 in
  (∃ news, w_netcdf w' = w_netcdf w ++ news ∧
     Forall (λ n, ∃ var, var ∈ vars ∧
       pressure_write E output_base_dir date_str attrs grouped var n) news) ∧
  w_skipped_files w' = w_skipped_files w ∧ w_dirs w' = w_dirs w ∧
  w_clock w' = w_clock w.
Proof.
  revert w. induction vars as [|var vars IH]; intros w; simpl.
  - split; [|done]. exists []. by rewrite app_nil_r.
  - destruct (grouped !!! var) as [|p g] eqn:Hg.
    + destruct (IH w) as ((news & Hnews & Hall) & ? & ? & ?).
      split; [|done]. exists news. split; [done |].
      eapply Forall_impl; [exact Hall |]. intros n (v & Hv & Hw).
      exists v. split; [by right | done].
    + destruct (aggregate E var (p :: g)) as [combined_var|e] eqn:Hagg; simpl.
      * match goal with
        | |- context [write_pressure _ _ _ _ _ _ ?w0] =>
            destruct (IH w0) as ((news & Hnews & Hall) & Hs & Hd & Hc)
        end.
        simpl in Hnews, Hs, Hd, Hc. split; [|done].
        eexists (_ :: news). split.
        -- rewrite Hnews, <- app_assoc. reflexivity.
        -- constructor.
           ++ exists var. split; [left |]. exists combined_var.
              rewrite Hg, attrs_update_empty. done.
           ++ eapply Forall_impl; [exact Hall |]. intros n (v & Hv & Hw).
              exists v. split; [by right | done].
      * split; [|done]. exists []. by rewrite app_nil_r.
Qed.

(** The global attributes of the files of one input file: the clock is read
    twice, at the readings [w_clock w] and [w_clock w + 1]. *)

#[local] Arguments global_attrs : simpl never.
#[local] Arguments encoding : simpl never.
#[local] Arguments write_pressure : simpl never.
#[local] Arguments collect : simpl never.

Lemma transform_frame (E : Env) (output_base_dir date_str : string)
    (md : gmap string (gmap string attr_val)) (ds : Dataset) (w : World) :
  let w' := (transform E output_base_dir date_str md ds w).1 in
  (∃ news, w_netcdf w' = w_netcdf w ++ news ∧
     Forall (λ n, nc_encoding n = encoding ∧
                  out_attrs (nc_dataset n) = file_attrs E date_str w) news) ∧
  w_skipped_files w' = w_skipped_files w ∧ w_dirs w' = w_dirs w ∧
  w_clock w' = (w_clock w + match enrich_lat_lon md ds with
                            | Ok _ => 2 | Raise _ => 0 end)%nat.
Proof.
  unfold transform. destruct (enrich_lat_lon md ds) as [ds1|e]; cbn [fst].
  2: { split; [|split; [done | split; [done | lia]]]. exists []. by rewrite app_nil_r. }
  fold (file_attrs E date_str w).
  set (c := collect md _ _ _).
  set (attrs := file_attrs E date_str w).
  set (w1 := write_surface output_base_dir date_str attrs (surface_ds c) (tick 2 w)).
  destruct (write_surface_frame output_base_dir date_str attrs (surface_ds c) (tick 2 w))
    as (Hn1 & Hs1 & Hd1 & Hc1).
  destruct (write_pressure_frame E output_base_dir date_str attrs
              (grouped_pressure_data c) pressure_vars w1)
    as ((news & Hn2 & Hall) & Hs2 & Hd2 & Hc2).
  fold w1 in Hn1, Hs1, Hd1, Hc1. cbn [tick w_netcdf w_skipped_files w_dirs w_clock]
    in Hn1, Hs1, Hd1, Hc1.
  split; [|split; [congruence | split; [congruence | congruence]]].
  eexists. split.
  - rewrite Hn2, Hn1, <- app_assoc. reflexivity.
  - apply Forall_app. split.
    + unfold surface_writes. case_decide; repeat constructor.
    + eapply Forall_impl; [exact Hall |].
      intros n (var & _ & pv & _ & _ & ->). done.
Qed.

Lemma process_single_netcdf_open (E : Env)
    (input_file input_dir output_base_dir : string)
    (md : gmap string (gmap string attr_val)) (w : World)
    (file_year month day : string) (ds : Dataset) :
  re_search_date input_file = Some (file_year, month, day) →
  xr_open_dataset E (path_join input_dir input_file) = Ok ds →
  process_single_netcdf E input_file input_dir output_base_dir md w =
    transform E output_base_dir (file_year +:+ "-" +:+ month +:+ "-" +:+ day) md ds
      (print ("Processing file: " +:+ input_file +:+ " (" +:+
              (file_year +:+ "-" +:+ month +:+ "-" +:+ day) +:+ ")") w).
Proof. intros Hm Ho. unfold process_single_netcdf. by rewrite Hm, Ho. Qed.

(** One call of the transformer: the files it writes all have the time
    encoding and one set of global attributes; the failure log only grows;
    no directory is made. *)
Lemma process_single_netcdf_frame (E : Env)
    (input_file input_dir output_base_dir : string)
    (md : gmap string (gmap string attr_val)) (w : World) :
  let w' := (process_single_netcdf E input_file input_dir output_base_dir md w).1 in
  (∃ news attrs, w_netcdf w' = w_netcdf w ++ news ∧
     Forall (λ n, nc_encoding n = encoding ∧ out_attrs (nc_dataset n) = attrs) news) ∧
  (∃ more, w_skipped_files w' = w_skipped_files w ++ more) ∧
  w_dirs w' = w_dirs w.
Proof.
  unfold process_single_netcdf.
  destruct (re_search_date input_file) as [[[y m] d]|]; cbn [fst].
  2: { split; [|split; [|done]].
       - exists [], ∅. by rewrite app_nil_r.
       - exists []. by rewrite app_nil_r. }
  destruct (xr_open_dataset E (path_join input_dir input_file)) as [ds|e]; cbn [fst].
  - match goal with
    | |- context [transform _ _ ?date _ _ ?w0] =>
        destruct (transform_frame E output_base_dir date md ds w0)
          as ((news & Hn & Hall) & Hs & Hd & _)
    end.
    cbn [print w_netcdf w_skipped_files w_dirs] in Hn, Hs, Hd.
    split; [|split; [|done]].
    + by eexists news, _.
    + exists []. by rewrite app_nil_r.
  - cbn [print skip_log_write w_netcdf w_skipped_files w_dirs].
    split; [|split; [|done]].
    + exists [], ∅. by rewrite app_nil_r.
    + by eexists.
Qed.

Lemma process_single_netcdf_writes (E : Env)
    (input_file input_dir output_base_dir : string)
    (md : gmap string (gmap string attr_val)) (w : World)
    (file_year month day : string) :
  re_search_date input_file = Some (file_year, month, day) →
  let w' := (process_single_netcdf E input_file input_dir output_base_dir md w).1 in
  ∃ news, w_netcdf w' = w_netcdf w ++ news ∧
    Forall (λ n, nc_encoding n = encoding ∧
                 out_attrs (nc_dataset n) =
                   file_attrs E (file_year +:+ "-" +:+ month +:+ "-" +:+ day) w) news ∧
    (w_clock w' ≤ w_clock w + 2)%nat.
Proof.
  intros Hm. unfold process_single_netcdf. rewrite Hm.
  destruct (xr_open_dataset E (path_join input_dir input_file)) as [ds|e]; cbn [fst].
  - match goal with
    | |- context [transform _ _ ?date _ _ ?w0] =>
        destruct (transform_frame E output_base_dir date md ds w0)
          as ((news & Hn & Hall) & _ & _ & Hc)
    end.
    cbn [print w_netcdf w_clock] in Hn, Hc. exists news.
    split; [done |]. split; [done |]. rewrite Hc.
    destruct (enrich_lat_lon md ds); lia.
  - cbn [print skip_log_write w_netcdf w_clock]. exists [].
    split; [by rewrite app_nil_r |]. split; [constructor | lia].
Qed.

(** ** Properties of the files of one input file *)

(** C10. The files written for one input file carry the same global
    attributes.  They are the template filled in once: the clock is read
    once for [creation_date] and once for [history], at most twice in the
    whole call, and [title] holds the date of the file name. *)
Theorem C10_one_set_of_global_attributes (E : Env)
    (input_file input_dir output_base_dir : string)
    (md : gmap string (gmap string attr_val)) (w : World) :
  let w' := (process_single_netcdf E input_file input_dir output_base_dir md w).1 in
  ∃ news, w_netcdf w' = w_netcdf w ++ news ∧
    (∀ n1 n2, n1 ∈ news → n2 ∈ news →
       out_attrs (nc_dataset n1) = out_attrs (nc_dataset n2)) ∧
    (∀ file_year month day,
       re_search_date input_file = Some (file_year, month, day) →
       let date_str := file_year +:+ "-" +:+ month +:+ "-" +:+ day in
       let attrs := global_attrs (utcnow E (w_clock w)) (utcnow E (S (w_clock w)))
                      date_str in
       Forall (λ n, out_attrs (nc_dataset n) = attrs) news ∧
       attrs !! "creation_date" = Some (AStr (utcnow E (w_clock w))) ∧
       attrs !! "history" =
         Some (AStr (utcnow E (S (w_clock w)) +:+ " Data processed for NetCDF format")) ∧
       attrs !! "title" =
         Some (AStr ("Graphcast-operational Forecast Data for " +:+ date_str)) ∧
       (w_clock w' ≤ w_clock w + 2)%nat).
Proof.
  intros w'.
  destruct (re_search_date input_file) as [[[y m] d]|] eqn:Hm.
  - destruct (process_single_netcdf_writes E input_file input_dir output_base_dir
                md w y m d Hm) as (news & Hn & Hall & Hc).
    fold w' in Hn, Hc. exists news. split; [done |].
    rewrite Forall_forall in Hall. split.
    + intros n1 n2 H1 H2. destruct (Hall n1 H1) as [_ ->].
      by destruct (Hall n2 H2) as [_ ->].
    + intros file_year month day [= <- <- <-] date_str attrs.
      split; [|done]. apply Forall_forall. intros n Hin. by destruct (Hall n Hin).
  - exists []. subst w'. unfold process_single_netcdf. rewrite Hm. cbn [fst].
    split; [by rewrite app_nil_r |]. split; [|done].
    intros n1 n2 H1. by apply elem_of_nil in H1.
Qed.

Lemma C10_one_set_of_global_attributes_witness :
  ∃ news,
    w_netcdf (process_single_netcdf sample_env "graphcast_2024_01_01.nc" "/in"
                "/work/2024" metadata_dict world0).1 = news ∧
    length news = 2%nat ∧
    Forall (λ n, out_attrs (nc_dataset n) !! "title" =
                   Some (AStr "Graphcast-operational Forecast Data for 2024-01-01"))
      news.
Proof.
  destruct (C10_one_set_of_global_attributes sample_env "graphcast_2024_01_01.nc"
              "/in" "/work/2024" metadata_dict world0) as (news & Hn & _ & Hdate).
  destruct (Hdate "2024" "01" "01" eq_refl) as (Hall & _ & _ & Htitle & _).
  pose proof (f_equal length Hn) as Hlen. vm_compute in Hlen.
  exists news. split; [exact Hn |]. split.
  - exact (eq_sym Hlen).
  - eapply Forall_impl; [exact Hall |]. intros n ->. exact Htitle.
Defined.

(** ** Properties of the coordinates *)

Lemma ds_contains_true (name : string) (ds : Dataset) :
  ds_contains name ds = true ↔ is_Some (ds_variables ds !! name).
Proof. unfold ds_contains. apply bool_decide_eq_true. Qed.




(** C8. When the dataset has both [lat] and [lon], and the catalog has
    both entries, each of the two gets the attributes of its catalog entry
    on top of its own, and nothing else changes.  When one of the two is
    missing, or both, the dataset is left as it is: a lone [lat] or a lone
    [lon] gets nothing. *)
Theorem C8_lat_lon_together (md : gmap string (gmap string attr_val)) (ds : Dataset) :
  (∀ lat lon lat_attrs lon_attrs,
     ds_variables ds !! "lat" = Some lat → ds_variables ds !! "lon" = Some lon →
     md !! "lat" = Some lat_attrs → md !! "lon" = Some lon_attrs →
     ∃ ds', enrich_lat_lon md ds = Ok ds' ∧
       ds_variables ds' !! "lat" = Some (da_update_attrs lat_attrs lat) ∧
       ds_variables ds' !! "lon" = Some (da_update_attrs lon_attrs lon) ∧
       (∀ name, name ≠ "lat" → name ≠ "lon" →
          ds_variables ds' !! name = ds_variables ds !! name) ∧
       ds_data_vars ds' = ds_data_vars ds) ∧
  (ds_variables ds !! "lat" = None ∨ ds_variables ds !! "lon" = None →
     enrich_lat_lon md ds = Ok ds).
Proof.
  split.
  - intros lat lon lat_attrs lon_attrs Hlat Hlon Hmlat Hmlon. unfold enrich_lat_lon.
    assert (ds_contains "lat" ds = true) as -> by (apply ds_contains_true; eauto).
    assert (ds_contains "lon" ds = true) as -> by (apply ds_contains_true; eauto).
    rewrite Hmlat, Hmlon. cbn [andb]. eexists. split; [done |].
    unfold ds_alter_attrs. cbn [ds_variables ds_data_vars].
    split; [|split; [|split; [|done]]].
    + rewrite lookup_alter_ne by discriminate. by rewrite lookup_alter_eq, Hlat.
    + rewrite lookup_alter_eq. rewrite lookup_alter_ne by discriminate. by rewrite Hlon.
    + intros name H1 H2. by rewrite !lookup_alter_ne.
  - intros Hnone. unfold enrich_lat_lon.
    assert (ds_contains "lat" ds && ds_contains "lon" ds = false) as ->; [|done].
    apply andb_false_iff. unfold ds_contains.
    destruct Hnone as [H|H]; [left | right]; apply bool_decide_eq_false;
      rewrite H; by intros [? ?].
Qed.

Lemma C8_lat_lon_together_witness :
  (∃ ds', enrich_lat_lon metadata_dict sample_ds = Ok ds' ∧
     ds_variables ds' !! "lat" =
       Some (da_update_attrs
               (list_to_map [("long_name", AStr "Latitude");
                             ("standard_name", AStr "latitude");
                             ("units", AStr "degrees_north"); ("axis", AStr "Y")])
               (axis "lat" 2 []))) ∧
  enrich_lat_lon metadata_dict
    {| ds_variables := {[ "lat" := axis "lat" 2 [] ]}; ds_data_vars := [] |}
  = Ok {| ds_variables := {[ "lat" := axis "lat" 2 [] ]}; ds_data_vars := [] |}.
Proof.
  split.
  - destruct (C8_lat_lon_together metadata_dict sample_ds) as [Hboth _].
    destruct (Hboth (axis "lat" 2 []) (axis "lon" 2 [])
                (list_to_map [("long_name", AStr "Latitude");
                              ("standard_name", AStr "latitude");
                              ("units", AStr "degrees_north"); ("axis", AStr "Y")])
                (list_to_map [("long_name", AStr "Longitude");
                              ("standard_name", AStr "longitude");
                              ("units", AStr "degrees_east"); ("axis", AStr "X")]))
      as (ds' & H1 & H2 & _); [reflexivity.. |].
    by exists ds'.
  - apply C8_lat_lon_together. right. reflexivity.
Defined.

(** ** Properties of failures and the dispatcher *)

Lemma run_chunk_log (E : Env) (input_dir output_base_dir : string)
    (md : gmap string (gmap string attr_val)) (files : list string) (w : World) :
  w_skipped_files w `prefix_of`
    w_skipped_files (run_chunk E input_dir output_base_dir md files w).1.
Proof.
  revert w. induction files as [|f files IH]; intros w; simpl; [done |].
  destruct (process_single_netcdf_frame E f input_dir output_base_dir md w)
    as (_ & (more & Hmore) & _).
  destruct (process_single_netcdf E f input_dir output_base_dir md w) as [w' [|e]];
    simpl in Hmore.
  - etrans; [|apply IH]. rewrite Hmore. by apply prefix_app_r.
  - simpl. rewrite Hmore. by apply prefix_app_r.
Qed.

Lemma run_chunks_log (E : Env) (input_dir output_base_dir : string)
    (md : gmap string (gmap string attr_val)) (cs : list (list string)) (w : World) :
  w_skipped_files w `prefix_of`
    w_skipped_files (run_chunks E input_dir output_base_dir md cs w).1.
Proof.
  revert w. induction cs as [|c cs IH]; intros w; simpl; [done |].
  pose proof (run_chunk_log E input_dir output_base_dir md c w) as H1.
  destruct (run_chunk E input_dir output_base_dir md c w) as [w1 o1].
  pose proof (IH w1) as H2.
  destruct (run_chunks E input_dir output_base_dir md cs w1) as [w2 o2].
  simpl in *. by etrans.
Qed.

(** C5. A file whose name carries a date and whose opening raises [e]
    makes the transformer return normally with exactly one record,
    [{input_file} - {e}] and a newline, appended to the failure log and no
    file written; the worker goes on with the next file of its chunk.  No
    call of the transformer and no run of the dispatcher removes or changes
    a record that is already in the log. *)
Theorem C5_open_failure (E : Env) (input_dir output_base_dir : string)
    (md : gmap string (gmap string attr_val)) :
  (∀ input_file file_year month day e w,
     re_search_date input_file = Some (file_year, month, day) →
     xr_open_dataset E (path_join input_dir input_file) = Raise e →
     ∃ w', process_single_netcdf E input_file input_dir output_base_dir md w
             = (w', Returned) ∧
       w_netcdf w' = w_netcdf w ∧
       w_skipped_files w' = w_skipped_files w ++ [input_file +:+ " - " +:+ e +:+ nl] ∧
       w_dirs w' = w_dirs w ∧
       ∀ rest, run_chunk E input_dir output_base_dir md (input_file :: rest) w
               = run_chunk E input_dir output_base_dir md rest w') ∧
  (∀ input_file w,
     w_skipped_files w `prefix_of`
       w_skipped_files
         (process_single_netcdf E input_file input_dir output_base_dir md w).1) ∧
  (∀ year w,
     w_skipped_files w `prefix_of`
       w_skipped_files (process_netcdf_for_year E year input_dir md w).1).
Proof.
  split; [|split].
  - intros input_file file_year month day e w Hm Ho.
    eexists. split; [unfold process_single_netcdf; by rewrite Hm, Ho |].
    cbn [print skip_log_write w_netcdf w_skipped_files w_dirs].
    repeat split. intros rest. cbn [run_chunk].
    unfold process_single_netcdf at 1. by rewrite Hm, Ho.
  - intros input_file w.
    destruct (process_single_netcdf_frame E input_file input_dir output_base_dir md w)
      as (_ & (more & ->) & _).
    by apply prefix_app_r.
  - intros year w. unfold process_netcdf_for_year.
    destruct (os_listdir E input_dir) as [listing|e]; [|done].
    destruct (discover year listing) as [|f files] eqn:Hfiles; [done |].
    destruct (Nat.min 4 (cpu_count E) =? 0)%nat; [done |].
    match goal with
    | |- context [run_chunks _ _ ?out _ ?cs ?w0] =>
        apply (run_chunks_log E input_dir out md cs w0)
    end.
Qed.

Lemma C5_open_failure_witness :
  ∃ w', process_single_netcdf sample_env "graphcast_2024_01_03.nc" "/in" "/work/2024"
          metadata_dict world0 = (w', Returned) ∧
    w_netcdf w' = [] ∧
    w_skipped_files w' = ["graphcast_2024_01_03.nc - NetCDF: Unknown file format" +:+ nl].
Proof.
  destruct (C5_open_failure sample_env "/in" "/work/2024" metadata_dict) as [Hfail _].
  destruct (Hfail "graphcast_2024_01_03.nc" "2024" "01" "03"
              "NetCDF: Unknown file format" world0)
    as (w' & Hrun & Hnc & Hlog & _); [reflexivity.. |].
  by exists w'.
Defined.





(** ** A failing aggregation *)

Lemma write_pressure_cons (E : Env) (output_base_dir date_str : string)
    (attrs : gmap string attr_val) (grouped : gmap string (list (Z * DataArray)))
    (var : string) (rest : list string) (w : World) :
  write_pressure E output_base_dir date_str attrs grouped (var :: rest) w =
    match grouped !!! var with
    | [] => write_pressure E output_base_dir date_str attrs grouped rest w
    | level_data =>
        match aggregate E var level_data with
        | Raise e => (w, Raised e)
        | Ok combined_var =>
            let pressure_output_file :=
              path_join output_base_dir
                (var +:+ "_pressure_levels_" +:+ date_str +:+ ".nc") in
            write_pressure E output_base_dir date_str attrs grouped rest
              (print ("Saved " +:+ var +:+ " pressure-level variables to "
                      +:+ pressure_output_file)
                 (to_netcdf pressure_output_file
                    (PressureDataset var combined_var (attrs_update ∅ attrs))
                    encoding w))
        end
    end.
Proof. reflexivity. Qed.






(** * Further properties *)

(** ** The history dimension *)

Lemma dim_size_filter (name h : string) (dims : list (string * nat)) :
  dim_size name (filter (λ d, d.1 ≠ h) dims) =
    if decide (name = h) then None else dim_size name dims.
Proof.
  induction dims as [|[d n] dims IH]; simpl.
  - by case_decide.
  - destruct (decide (d = h)) as [->|Hdh].
    + rewrite filter_cons_False by (simpl; tauto). rewrite IH.
      destruct (decide (name = h)) as [->|Hne]; [done |].
      by rewrite decide_False by congruence.
    + rewrite filter_cons_True by done. simpl. rewrite IH.
      destruct (decide (d = name)) as [->|Hdn]; [|done].
      by rewrite decide_False.
Qed.

(** X1. Dropping the history dimension changes the dimensions only: the
    attributes and the cells stay.  An array whose [history] has size 1
    loses exactly that dimension, every other dimension keeps its size; any
    other array (no [history], or a [history] of another size) comes back as
    it is.  Dropping twice is dropping once. *)
Theorem X1_drop_history_dim (data_array : DataArray) :
  da_attrs (drop_history_dim data_array) = da_attrs data_array ∧
  da_values (drop_history_dim data_array) = da_values data_array ∧
  (dim_size "history" (da_dims data_array) = Some 1%nat →
     dim_size "history" (da_dims (drop_history_dim data_array)) = None ∧
     ∀ name, name ≠ "history" →
       dim_size name (da_dims (drop_history_dim data_array))
       = dim_size name (da_dims data_array)) ∧
  (dim_size "history" (da_dims data_array) ≠ Some 1%nat →
     drop_history_dim data_array = data_array) ∧
  drop_history_dim (drop_history_dim data_array) = drop_history_dim data_array.
Proof.
  unfold drop_history_dim.
  destruct (dim_size "history" (da_dims data_array)) as [[|[|n]]|] eqn:Hh;
    cbn [da_dims da_attrs da_values]; rewrite ?Hh;
    try (repeat split; done).
  rewrite dim_size_filter. rewrite decide_True by done.
  repeat split; try done.
  intros name Hne. rewrite dim_size_filter. by rewrite decide_False.
Qed.

Lemma X1_drop_history_dim_witness :
  da_dims (drop_history_dim
             {| da_dims := [("history", 1%nat); ("time", 4%nat); ("lat", 2%nat)];
                da_attrs := ∅; da_values := [1; 2] |})
    = [("time", 4%nat); ("lat", 2%nat)] ∧
  drop_history_dim (grid 2 2 [1; 2; 3; 4]) = grid 2 2 [1; 2; 3; 4].
Proof.
  split.
  - reflexivity.
  - destruct (X1_drop_history_dim (grid 2 2 [1; 2; 3; 4])) as (_ & _ & _ & H & _).
    apply H. discriminate.
Defined.

(** ** Discovery *)

Lemma re_match_year_spec (year f : string) :
  re_match_year year f = true ↔
  ∃ m d rest,
    f = "graphcast_" +:+ year +:+ "_" +:+ m +:+ "_" +:+ d +:+ ".nc" +:+ rest ∧
    (String.length m = 2%nat ∧ all_digits m = true) ∧
    (String.length d = 2%nat ∧ all_digits d = true).
Proof.
  unfold re_match_year. rewrite bool_decide_eq_true. split.
  - intros [rest H].
    destruct (expect ("graphcast_" +:+ year +:+ "_") f) as [s1|] eqn:H1;
      simpl in H; [|done].
    destruct (digits 2 s1) as [[m s2]|] eqn:H2; simpl in H; [|done].
    destruct (expect "_" s2) as [s3|] eqn:H3; simpl in H; [|done].
    destruct (digits 2 s3) as [[d s4]|] eqn:H4; simpl in H; [|done].
    apply expect_spec in H1, H3, H. apply digits_spec in H2, H4.
    destruct H2 as (-> & ? & ?), H4 as (-> & ? & ?). subst.
    exists m, d, rest. split; [|done]. by rewrite !append_assoc.
  - intros (m & d & rest & -> & (Hm1 & Hm2) & (Hd1 & Hd2)).
    exists rest.
    replace ("graphcast_" +:+ year +:+ "_" +:+ m +:+ "_" +:+ d +:+ ".nc" +:+ rest)
      with (("graphcast_" +:+ year +:+ "_") +:+ m +:+ "_" +:+ d +:+ ".nc" +:+ rest)
      by by rewrite !append_assoc.
    rewrite expect_app, bind_Some. cbv beta iota.
    rewrite (digits_app 2) by done. rewrite bind_Some. cbv beta iota.
    rewrite expect_app, bind_Some. cbv beta iota.
    rewrite (digits_app 2) by done. rewrite bind_Some. cbv beta iota.
    apply expect_app.
Qed.



(** X3. The files handed to the pool are the names of the listing that the
    pattern accepts, each as often as the listing has it, in ascending
    order. *)
Theorem X3_discover_sorted (year : string) (listing : list string) :
  Sorted (λ a b, String.leb a b = true) (discover year listing) ∧
  discover year listing ≡ₚ filter (λ f, re_match_year year f = true) listing ∧
  (∀ f, f ∈ discover year listing ↔ f ∈ listing ∧ re_match_year year f = true).
Proof.
  assert (∀ x l, Sorted (λ a b, String.leb a b = true) l →
            Sorted (λ a b, String.leb a b = true) (insert_name x l) ∧
            insert_name x l ≡ₚ x :: l ∧
            ∀ y, HdRel (λ a b, String.leb a b = true) y l → String.leb y x = true →
                 HdRel (λ a b, String.leb a b = true) y (insert_name x l)) as Hins.
  { intros x l. induction l as [|z l IH]; intros Hs; simpl.
    - split; [repeat constructor |]. split; [done |]. intros; by constructor.
    - apply Sorted_inv in Hs as [Hs Hhd].
      destruct (String.leb x z) eqn:Hxz.
      + split; [constructor; [by constructor | by constructor] |].
        split; [done |]. intros y _ Hyx. by constructor.
      + destruct (IH Hs) as (IH1 & IH2 & IH3).
        assert (String.leb z x = true) as Hzx.
        { destruct (String.leb_total x z) as [H|H]; [congruence | done]. }
        split; [constructor; [done | by apply IH3] |].
        split; [by rewrite IH2, Permutation_swap |].
        intros y Hy _. apply HdRel_inv in Hy. by constructor. }
  assert (∀ l, Sorted (λ a b, String.leb a b = true) (sorted_names l) ∧
               sorted_names l ≡ₚ l) as Hsort.
  { unfold sorted_names. induction l as [|x l [IH1 IH2]]; simpl; [by split |].
    destruct (Hins x _ IH1) as (H1 & H2 & _). split; [done |]. by rewrite H2, IH2. }
  unfold discover. destruct (Hsort (filter (λ f, re_match_year year f = true) listing))
    as [H1 H2].
  split; [done |]. split; [done |]. intros f. apply elem_of_discover.
Qed.

(** ** What the classification loop collects *)

Lemma enrich_var_values (md : gmap string (gmap string attr_val))
    (var_name : string) (raw : DataArray) :
  da_values (enrich_var md var_name raw) = da_values raw.
Proof.
  assert (da_values (drop_history_dim raw) = da_values raw) as Hdrop.
  { unfold drop_history_dim.
    by destruct (dim_size "history" (da_dims raw)) as [[|[|n]]|]. }
  unfold enrich_var. by destruct (md !! var_name).
Qed.

Lemma collect_cons (md : gmap string (gmap string attr_val))
    (vars : gmap string DataArray) (n : string) (names : list string)
    (acc : Collected) :
  collect md vars (n :: names) acc =
    match vars !! n with
    | Some raw => collect md vars names (collect_var md n raw acc)
    | None => collect md vars names acc
    end.
Proof. reflexivity. Qed.

Lemma collected_values_init (md : gmap string (gmap string attr_val))
    (vars : gmap string DataArray) :
  collected_values md vars collected_init.
Proof.
  split.
  - intros name v H. simpl in H. by rewrite lookup_empty in H.
  - intros base g level v Hg Hin. exfalso.
    destruct collected_from_init as [_ H0].
    destruct (H0 base g level v Hg Hin) as (_ & _ & Habs).
    by apply elem_of_nil in Habs.
Qed.

Lemma collect_var_values (md : gmap string (gmap string attr_val))
    (vars : gmap string DataArray) (var_name : string) (raw : DataArray)
    (acc : Collected) :
  vars !! var_name = Some raw → collected_values md vars acc →
  collected_values md vars (collect_var md var_name raw acc).
Proof.
  intros Hraw [Hs Hg]. unfold collect_var.
  destruct (classify var_name) as [b l| |] eqn:Hc; [| |done].
  - apply classify_PressureLevel in Hc as (_ & _ & Hname). split; simpl; [done |].
    intros base g level v Hlook Hin. destruct (decide (b = base)) as [->|Hne].
    + rewrite lookup_alter_eq in Hlook.
      destruct (grouped_pressure_data acc !! base) as [g0|] eqn:Hg0;
        simpl in Hlook; [|done].
      injection Hlook as <-. apply elem_of_app in Hin as [Hin|Hin]; [by eapply Hg |].
      apply list_elem_of_singleton in Hin. injection Hin as -> ->.
      rewrite <- Hname. eauto.
    + rewrite lookup_alter_ne in Hlook by done. by eapply Hg.
  - split; simpl; [|done]. intros name v Hlook.
    destruct (decide (var_name = name)) as [<-|Hne].
    + rewrite lookup_insert_eq in Hlook. injection Hlook as <-. eauto.
    + rewrite lookup_insert_ne in Hlook by done. by apply Hs.
Qed.

Lemma collect_values (md : gmap string (gmap string attr_val))
    (vars : gmap string DataArray) (names : list string) (acc : Collected) :
  collected_values md vars acc → collected_values md vars (collect md vars names acc).
Proof.
  revert acc. induction names as [|n names IH]; intros acc Hacc; [done |].
  rewrite collect_cons.
  destruct (vars !! n) as [raw|] eqn:Hn; [|by apply IH].
  apply IH. by apply collect_var_values.
Qed.

Lemma collect_surface_keeps (md : gmap string (gmap string attr_val))
    (vars : gmap string DataArray) (names : list string) (acc : Collected)
    (name : string) (raw : DataArray) :
  vars !! name = Some raw →
  surface_ds acc !! name = Some (enrich_var md name raw) →
  surface_ds (collect md vars names acc) !! name = Some (enrich_var md name raw).
Proof.
  intros Hraw. revert acc. induction names as [|n names IH]; intros acc Hacc;
    [done |].
  rewrite collect_cons.
  destruct (vars !! n) as [r|] eqn:Hn; [|by apply IH].
  apply IH. unfold collect_var. destruct (classify n); simpl; [done | | done].
  destruct (decide (n = name)) as [->|Hne].
  - rewrite lookup_insert_eq. congruence.
  - by rewrite lookup_insert_ne.
Qed.

Lemma collect_group_keeps (md : gmap string (gmap string attr_val))
    (vars : gmap string DataArray) (names : list string) (acc : Collected)
    (base : string) (x : Z * DataArray) :
  (∃ g, grouped_pressure_data acc !! base = Some g ∧ x ∈ g) →
  ∃ g, grouped_pressure_data (collect md vars names acc) !! base = Some g ∧ x ∈ g.
Proof.
  revert acc. induction names as [|n names IH]; intros acc Hacc; [done |].
  rewrite collect_cons.
  destruct (vars !! n) as [r|] eqn:Hn; [|by apply IH].
  apply IH. destruct Hacc as (g & Hg & Hin). unfold collect_var.
  destruct (classify n) as [b l| |]; simpl; [|eauto..].
  destruct (decide (b = base)) as [->|Hne].
  - rewrite lookup_alter_eq, Hg. simpl. eexists. split; [done |].
    apply elem_of_app. by left.
  - rewrite lookup_alter_ne by done. eauto.
Qed.

Lemma collect_group_keys (md : gmap string (gmap string attr_val))
    (vars : gmap string DataArray) (names : list string) (acc : Collected)
    (base : string) :
  is_Some (grouped_pressure_data acc !! base) →
  is_Some (grouped_pressure_data (collect md vars names acc) !! base).
Proof.
  revert acc. induction names as [|n names IH]; intros acc Hacc; [done |].
  rewrite collect_cons.
  destruct (vars !! n) as [r|] eqn:Hn; [|by apply IH].
  apply IH. unfold collect_var. destruct (classify n) as [b l| |]; simpl; [|done..].
  rewrite lookup_alter. case_decide; [|done]. subst. by apply fmap_is_Some.
Qed.

Lemma collected_init_keys (base : string) :
  base ∈ pressure_vars → is_Some (grouped_pressure_data collected_init !! base).
Proof.
  intros Hb. unfold collected_init, pressure_vars in *. simpl.
  repeat (apply elem_of_cons in Hb as [->|Hb]; [by_decide |]).
  by apply elem_of_nil in Hb.
Qed.

(** X4. A data variable with a surface name ends up in the surface
    collection under its name, with the history dimension dropped and the
    catalog attributes of its name added; conversely every entry of the
    surface collection is such a variable of the dataset, with the cells it
    had in the dataset. *)
Theorem X4_surface_variables_collected (md : gmap string (gmap string attr_val))
    (ds : Dataset) (name : string) :
  let c := collect md (ds_variables ds) (ds_data_vars ds) collected_init in
  (∀ raw, name ∈ ds_data_vars ds → ds_variables ds !! name = Some raw →
     name ∈ surface_var_names →
     surface_ds c !! name = Some (enrich_var md name raw)) ∧
  (∀ v, surface_ds c !! name = Some v →
     ∃ raw, ds_variables ds !! name = Some raw ∧ v = enrich_var md name raw ∧
       da_values v = da_values raw ∧
       name ∈ ds_data_vars ds ∧ name ∈ surface_var_names).
Proof.
  intros c. split.
  - intros raw Hin Hraw Hsurf. subst c. generalize collected_init.
    induction (ds_data_vars ds) as [|n names IH]; intros acc;
      [by apply elem_of_nil in Hin |].
    rewrite collect_cons. apply elem_of_cons in Hin as [<-|Hin].
    + rewrite Hraw. apply collect_surface_keeps; [done |].
      unfold collect_var. rewrite (proj2 (classify_Surface name) Hsurf). simpl.
      by rewrite lookup_insert_eq.
    + destruct (ds_variables ds !! n); by apply IH.
  - intros v Hv.
    destruct (collect_values md (ds_variables ds) (ds_data_vars ds) collected_init)
      as [Hs _].
    { apply collected_values_init. }
    destruct (Hs name v Hv) as (raw & Hraw & ->).
    exists raw. split; [done |]. split; [done |].
    split; [apply enrich_var_values |].
    destruct (collect_from md (ds_variables ds) (ds_data_vars ds) [] collected_init
                collected_from_init) as [Hfrom _].
    destruct (Hfrom name) as [? ?]; [by eexists | done].
Qed.

Lemma X4_surface_variables_collected_witness :
  surface_ds (collect metadata_dict (ds_variables sample_ds) (ds_data_vars sample_ds)
                collected_init) !! "u10m"
    = Some (enrich_var metadata_dict "u10m" (grid 2 2 [9; 9; 9; 9])).
Proof.
  apply (X4_surface_variables_collected metadata_dict sample_ds "u10m").
  - by_decide.
  - reflexivity.
  - by_decide.
Defined.

(** X5. A data variable named [{base}{level}] ends up in the group of its
    base, paired with its level, with the history dimension dropped;
    conversely every entry of a group is such a variable of the dataset,
    with the cells it had there. *)
Theorem X5_pressure_variables_collected (md : gmap string (gmap string attr_val))
    (ds : Dataset) (base : string) (level : Z) :
  let c := collect md (ds_variables ds) (ds_data_vars ds) collected_init in
  (∀ raw, base ∈ pressure_vars → level ∈ pressure_levels →
     base +:+ pretty level ∈ ds_data_vars ds →
     ds_variables ds !! (base +:+ pretty level) = Some raw →
     ∃ g, grouped_pressure_data c !! base = Some g ∧
       (level, enrich_var md (base +:+ pretty level) raw) ∈ g) ∧
  (∀ g v, grouped_pressure_data c !! base = Some g → (level, v) ∈ g →
     ∃ raw, ds_variables ds !! (base +:+ pretty level) = Some raw ∧
       v = enrich_var md (base +:+ pretty level) raw ∧
       da_values v = da_values raw ∧
       base +:+ pretty level ∈ ds_data_vars ds).
Proof.
  intros c. split.
  - intros raw Hb Hl Hin Hraw. subst c.
    pose proof (collected_init_keys base Hb) as Hkeys. revert Hkeys.
    generalize collected_init.
    induction (ds_data_vars ds) as [|n names IH]; intros acc Hkeys;
      [by apply elem_of_nil in Hin |].
    rewrite collect_cons. apply elem_of_cons in Hin as [<-|Hin].
    + rewrite Hraw. apply collect_group_keeps. unfold collect_var.
      rewrite (proj2 (classify_PressureLevel _ base level)) by done. simpl.
      rewrite lookup_alter_eq. destruct Hkeys as [g0 ->]. simpl.
      eexists. split; [done |]. apply elem_of_app. right. left.
    + destruct (ds_variables ds !! n) as [r|]; [|by apply IH].
      apply IH; [done |].
      apply (collect_group_keys md (ds_variables ds) [] _ base) in Hkeys.
      unfold collect_var. destruct (classify n) as [b l| |]; simpl; [|done..].
      rewrite lookup_alter. case_decide; [|done]. subst. by apply fmap_is_Some.
  - intros g v Hg Hin.
    destruct (collect_values md (ds_variables ds) (ds_data_vars ds) collected_init)
      as [_ Hv].
    { apply collected_values_init. }
    destruct (Hv base g level v Hg Hin) as (raw & Hraw & ->).
    exists raw. split; [done |]. split; [done |].
    split; [apply enrich_var_values |].
    destruct (collect_from md (ds_variables ds) (ds_data_vars ds) [] collected_init
                collected_from_init) as [_ Hfrom].
    by destruct (Hfrom base g level _ Hg Hin) as (_ & _ & ?).
Qed.

Lemma X5_pressure_variables_collected_witness :
  ∃ g, grouped_pressure_data
         (collect metadata_dict (ds_variables sample_ds) (ds_data_vars sample_ds)
            collected_init) !! "t" = Some g ∧
    (500, enrich_var metadata_dict "t500" (grid 2 2 [1; 2; 3; 4])) ∈ g.
Proof.
  apply (X5_pressure_variables_collected metadata_dict sample_ds "t" 500).
  - by_decide.
  - by_decide.
  - by_decide.
  - reflexivity.
Defined.

(** ** The files of one input file *)

Lemma write_pressure_paths (E : Env) (output_base_dir date_str : string)
    (attrs : gmap string attr_val) (grouped : gmap string (list (Z * DataArray)))
    (vars : list string) (w : World) :
  let r := write_pressure E output_base_dir date_str attrs grouped vars w in
  ∃ vs, nc_path <$> w_netcdf r.1 =
          (nc_path <$> w_netcdf w) ++ (pressure_path output_base_dir date_str <$> vs) ∧
    vs `prefix_of` with_data grouped vars ∧
    (r.2 = Returned → vs = with_data grouped vars).
Proof.
  revert w. unfold with_data.
  induction vars as [|var vars IH]; intros w.
  - exists []. split; [by rewrite app_nil_r |]. done.
  - cbv zeta. rewrite write_pressure_cons.
    destruct (grouped !!! var) as [|p g] eqn:Hg.
    + rewrite filter_cons_False by (rewrite Hg; tauto). apply IH.
    + rewrite filter_cons_True by (by rewrite Hg).
      destruct (aggregate E var (p :: g)) as [combined_var|e]; cbv zeta.
      * match goal with
        | |- context [write_pressure _ _ _ _ _ vars ?w0] =>
            destruct (IH w0) as (vs & Hp & Hpre & Hret)
        end.
        cbv zeta in Hp, Hret.
        cbn [print to_netcdf w_netcdf] in Hp. rewrite fmap_app in Hp.
        exists (var :: vs). split; [|split].
        -- rewrite Hp, <- app_assoc. done.
        -- by apply prefix_cons.
        -- intros H. f_equal. by apply Hret.
      * exists []. split; [by rewrite app_nil_r |].
        split; [apply prefix_nil | done].
Qed.

Lemma transform_paths (E : Env) (output_base_dir date_str : string)
    (md : gmap string (gmap string attr_val)) (ds ds1 : Dataset) (w : World) :
  enrich_lat_lon md ds = Ok ds1 →
  let c := collect md (ds_variables (enrich_time ds1)) (ds_data_vars (enrich_time ds1))
             collected_init in
  let r := transform E output_base_dir date_str md ds w in
  ∃ vars,
    nc_path <$> w_netcdf r.1 =
      (nc_path <$> w_netcdf w)
      ++ (if decide (surface_ds c = ∅) then []
          else [surface_path output_base_dir date_str])
      ++ (pressure_path output_base_dir date_str <$> vars) ∧
    vars `prefix_of` with_data (grouped_pressure_data c) pressure_vars ∧
    (r.2 = Returned → vars = with_data (grouped_pressure_data c) pressure_vars).
Proof.
  intros Hen c r. subst r. unfold transform. rewrite Hen. fold c.
  set (attrs := global_attrs _ _ _).
  set (w1 := write_surface output_base_dir date_str attrs (surface_ds c) (tick 2 w)).
  destruct (write_surface_frame output_base_dir date_str attrs (surface_ds c) (tick 2 w))
    as (Hn1 & _). fold w1 in Hn1. cbn [tick w_netcdf] in Hn1.
  destruct (write_pressure_paths E output_base_dir date_str attrs
              (grouped_pressure_data c) pressure_vars w1) as (vs & Hp & Hpre & Hret).
  cbv zeta in Hp, Hret. exists vs. split; [|done].
  rewrite Hp, Hn1. rewrite fmap_app, <- app_assoc.
  f_equal. f_equal. unfold surface_writes. by case_decide.
Qed.

(** X6. What one call of the transformer writes, when the file name carries
    a date, the file opens and the coordinates are enriched: first the
    surface file, if a surface variable was collected; then one file per
    quantity with data, in the order [q, t, z, u, v, w], up to the first
    quantity whose aggregation raises, and all of them when the call
    returns normally. *)
Theorem X6_files_written (E : Env)
    (input_file input_dir output_base_dir : string)
    (md : gmap string (gmap string attr_val)) (w : World)
    (file_year month day : string) (ds ds1 : Dataset) :
  re_search_date input_file = Some (file_year, month, day) →
  xr_open_dataset E (path_join input_dir input_file) = Ok ds →
  enrich_lat_lon md ds = Ok ds1 →
  let c := collect md (ds_variables (enrich_time ds1)) (ds_data_vars (enrich_time ds1))
             collected_init in
  let date_str := file_year +:+ "-" +:+ month +:+ "-" +:+ day in
  let r := process_single_netcdf E input_file input_dir output_base_dir md w in
  ∃ vars,
    nc_path <$> w_netcdf r.1 =
      (nc_path <$> w_netcdf w)
      ++ (if decide (surface_ds c = ∅) then []
          else [surface_path output_base_dir date_str])
      ++ (pressure_path output_base_dir date_str <$> vars) ∧
    vars `prefix_of` with_data (grouped_pressure_data c) pressure_vars ∧
    (r.2 = Returned → vars = with_data (grouped_pressure_data c) pressure_vars).
Proof.
  intros Hm Ho Hen c date_str r. subst r.
  rewrite (process_single_netcdf_open _ _ _ _ _ _ _ _ _ _ Hm Ho).
  destruct (transform_paths E output_base_dir date_str md ds ds1
              (print ("Processing file: " +:+ input_file +:+ " (" +:+ date_str +:+ ")") w)
              Hen) as (vars & Hp & Hpre & Hret).
  exists vars. split; [exact Hp |]. split; [exact Hpre | exact Hret].
Qed.

Lemma X6_files_written_witness :
  nc_path <$> w_netcdf
    (process_single_netcdf sample_env "graphcast_2024_01_01.nc" "/in" "/work/2024"
       metadata_dict world0).1
  = ["/work/2024/surface_variables_2024-01-01.nc";
     "/work/2024/t_pressure_levels_2024-01-01.nc"].
Proof.
  destruct (X6_files_written sample_env "graphcast_2024_01_01.nc" "/in" "/work/2024"
              metadata_dict world0 "2024" "01" "01" sample_ds
              (match enrich_lat_lon metadata_dict sample_ds with
               | Ok ds1 => ds1
               | Raise _ => sample_ds
               end))
    as (vars & Hp & _ & Hret).
  - reflexivity.
  - reflexivity.
  - vm_compute. reflexivity.
  - rewrite Hp, Hret by (vm_compute; reflexivity). vm_compute. reflexivity.
Defined.




Lemma prefix_append (a x : string) : String.prefix a (a +:+ x) = true.
Proof.
  induction a as [|c a IH]; simpl; [by destruct x |].
  destruct (ascii_dec c c); [done | congruence].
Qed.

Lemma path_join_relative (a b : string) :
  String.prefix "/" b = false →
  ∃ sep, path_join a b = a +:+ sep +:+ b ∧ ∀ b', String.prefix "/" b' = false →
    path_join a b' = a +:+ sep +:+ b'.
Proof.
  intros Hb. unfold path_join. rewrite Hb.
  destruct (bool_decide (a = "") || ends_with_slash a).
  - exists "". split; [done |]. by intros b' ->.
  - exists "/". split; [done |]. by intros b' ->.
Qed.

Lemma pressure_name_relative (var rest : string) :
  var ∈ pressure_vars → String.prefix "/" (var +:+ rest) = false.
Proof.
  intros Hvar. unfold pressure_vars in Hvar.
  repeat (apply elem_of_cons in Hvar as [->|Hvar]; [done |]).
  by apply elem_of_nil in Hvar.
Qed.

Lemma pressure_path_inj (output_base_dir date_str var var' : string) :
  var ∈ pressure_vars → var' ∈ pressure_vars →
  pressure_path output_base_dir date_str var
    = pressure_path output_base_dir date_str var' →
  var = var'.
Proof.
  intros Hv Hv' Heq. unfold pressure_path in Heq.
  destruct (path_join_relative output_base_dir
              (var +:+ "_pressure_levels_" +:+ date_str +:+ ".nc")) as (sep & H1 & H2);
    [by apply pressure_name_relative |].
  rewrite H1, (H2 (var' +:+ "_pressure_levels_" +:+ date_str +:+ ".nc")) in Heq
    by by apply pressure_name_relative.
  apply String.app_inj in Heq. apply String.app_inj in Heq.
  unfold pressure_vars in Hv, Hv'.
  repeat (apply elem_of_cons in Hv as [->|Hv];
    [repeat (apply elem_of_cons in Hv' as [->|Hv']; [done || discriminate Heq |]);
     by apply elem_of_nil in Hv' |]).
  by apply elem_of_nil in Hv.
Qed.

Lemma surface_path_not_pressure (output_base_dir date_str var : string) :
  var ∈ pressure_vars →
  surface_path output_base_dir date_str ≠ pressure_path output_base_dir date_str var.
Proof.
  intros Hv Heq. unfold surface_path, pressure_path in Heq.
  destruct (path_join_relative output_base_dir
              ("surface_variables_" +:+ date_str +:+ ".nc")) as (sep & H1 & H2);
    [done |].
  rewrite H1, (H2 (var +:+ "_pressure_levels_" +:+ date_str +:+ ".nc")) in Heq
    by by apply pressure_name_relative.
  apply String.app_inj in Heq. apply String.app_inj in Heq.
  unfold pressure_vars in Hv.
  repeat (apply elem_of_cons in Hv as [->|Hv]; [discriminate Heq |]).
  by apply elem_of_nil in Hv.
Qed.

Lemma path_join_prefix (a b : string) :
  String.prefix "/" b = false → String.prefix a (path_join a b) = true.
Proof.
  intros Hb. destruct (path_join_relative a b Hb) as (sep & -> & _).
  apply prefix_append.
Qed.

(** X8. The files one call of the transformer writes are at most seven,
    have pairwise different paths, and every path starts with the output
    directory the call was given: a call does not overwrite a file it has
    written and does not write outside that directory. *)
Theorem X8_output_paths (E : Env)
    (input_file input_dir output_base_dir : string)
    (md : gmap string (gmap string attr_val)) (w : World) :
  let r := process_single_netcdf E input_file input_dir output_base_dir md w in
  ∃ news, w_netcdf r.1 = w_netcdf w ++ news ∧
    NoDup (nc_path <$> news) ∧
    Forall (λ n, String.prefix output_base_dir (nc_path n) = true) news ∧
    (length news ≤ 7)%nat.
Proof.
  intros r. subst r.
  assert (∃ news : list NetcdfWrite, w_netcdf w = w_netcdf w ++ news ∧
            NoDup (nc_path <$> news) ∧
            Forall (λ n, String.prefix output_base_dir (nc_path n) = true) news ∧
            (length news ≤ 7)%nat) as Hnone.
  { exists []. rewrite app_nil_r. repeat split; [constructor | constructor | simpl; lia]. }
  unfold process_single_netcdf.
  destruct (re_search_date input_file) as [[[y m] d]|]; [|exact Hnone].
  destruct (xr_open_dataset E (path_join input_dir input_file)) as [ds|e];
    [|exact Hnone].
  set (date_str := y +:+ "-" +:+ m +:+ "-" +:+ d). set (w0 := print _ w).
  destruct (enrich_lat_lon md ds) as [ds1|e] eqn:Hen.
  2: { unfold transform. rewrite Hen. exact Hnone. }
  destruct (transform_frame E output_base_dir date_str md ds w0)
    as ((news & Hn & _) & _).
  destruct (transform_paths E output_base_dir date_str md ds ds1 w0 Hen)
    as (vars & Hp & Hpre & _).
  cbv zeta in Hn, Hp. set (c := collect md _ _ _) in Hp, Hpre.
  rewrite Hn, fmap_app in Hp. apply app_inv_head in Hp.
  exists news. split; [exact Hn |].
  assert (NoDup (with_data (grouped_pressure_data c) pressure_vars)) as Hnd0.
  { apply NoDup_filter. by_decide. }
  destruct Hpre as [k Hk]. rewrite Hk in Hnd0.
  apply NoDup_app in Hnd0 as (Hnd & _ & _).
  assert (∀ v, v ∈ vars → v ∈ pressure_vars) as Hin.
  { intros v Hv.
    assert (v ∈ with_data (grouped_pressure_data c) pressure_vars) as Hv'.
    { rewrite Hk. apply elem_of_app. by left. }
    unfold with_data in Hv'. by apply list_elem_of_filter in Hv' as [_ ?]. }
  assert ((length vars ≤ 6)%nat) as Hlen.
  { assert (length (with_data (grouped_pressure_data c) pressure_vars) ≤ 6)%nat as H6.
    { unfold with_data. etrans; [apply length_filter | done]. }
    rewrite Hk, length_app in H6. lia. }
  split; [|split].
  - rewrite Hp. apply NoDup_app. split; [|split].
    + case_decide; [constructor | apply NoDup_singleton].
    + intros p Hp1 Hp2. case_decide; [by apply elem_of_nil in Hp1 |].
      apply list_elem_of_singleton in Hp1 as ->.
      apply list_elem_of_fmap in Hp2 as (v & Heq & Hv).
      by apply (surface_path_not_pressure output_base_dir date_str v (Hin v Hv)).
    + apply NoDup_fmap_2_strong; [|done].
      intros v v' Hv Hv'. apply pressure_path_inj; by apply Hin.
  - apply (Forall_fmap nc_path (λ p, String.prefix output_base_dir p = true)).
    rewrite Hp. apply Forall_app. split.
    + case_decide; [constructor |]. constructor; [|constructor].
      by apply path_join_prefix.
    + apply Forall_fmap, Forall_forall. intros v Hv. simpl.
      apply path_join_prefix, pressure_name_relative. by apply Hin.
  - rewrite <- (length_fmap nc_path), Hp, length_app, length_fmap.
    case_decide; simpl; lia.
Qed.

(** ** Attributes of the stored and the aggregated variables *)

Lemma quantity_attrs_keys :
  Forall (λ var,
    Forall (λ k, is_Some (quantity_attrs var !! k))
      ["long_name"; "standard_name"; "units"] ∧
    size (quantity_attrs var) = 3%nat) pressure_vars.
Proof. by_decide. Qed.

(** X9. The aggregated variable of each of the six quantities carries the
    [long_name], [standard_name] and [units] of its quantity, whatever
    attributes the concatenation returned; every other attribute, the
    dimensions and the cells are those the concatenation returned. *)
Theorem X9_quantity_attributes (E : Env) (var : string)
    (level_data pairs : list (Z * DataArray)) (combined : DataArray) :
  var ∈ pressure_vars →
  sorted_level_data level_data = Some pairs →
  xr_concat E pairs.*2 "plevel" = Ok combined →
  ∃ combined_var, aggregate E var level_data = Ok combined_var ∧
    (∀ k, k ∈ ["long_name"; "standard_name"; "units"] →
       is_Some (quantity_attrs var !! k) ∧
       da_attrs (pv_array combined_var) !! k = quantity_attrs var !! k) ∧
    (∀ k, k ∉ ["long_name"; "standard_name"; "units"] →
       da_attrs (pv_array combined_var) !! k = da_attrs combined !! k) ∧
    da_dims (pv_array combined_var) = da_dims combined ∧
    da_values (pv_array combined_var) = da_values combined.
Proof.
  intros Hvar Hs Hc. eexists. split; [unfold aggregate; by rewrite Hs, Hc |].
  cbn [pv_array da_update_attrs da_attrs da_dims da_values]. unfold attrs_update.
  pose proof quantity_attrs_keys as Hkeys. rewrite Forall_forall in Hkeys.
  destruct (Hkeys var Hvar) as [Hk Hsize]. rewrite Forall_forall in Hk.
  split; [|split; [|done]].
  - intros k Hin. destruct (Hk k Hin) as [v Hv]. split; [by eexists |].
    rewrite Hv. by apply lookup_union_Some_l.
  - intros k Hnin. apply lookup_union_r.
    destruct (quantity_attrs var !! k) as [v|] eqn:Hv; [exfalso | done].
    apply Hnin.
    assert (dom (quantity_attrs var)
            = list_to_set ["long_name"; "standard_name"; "units"]) as Hdom.
    { unfold pressure_vars in Hvar.
      repeat (apply elem_of_cons in Hvar as [->|Hvar]; [by_decide |]).
      by apply elem_of_nil in Hvar. }
    assert (k ∈ dom (quantity_attrs var)) as Hd by (apply elem_of_dom; eauto).
    rewrite Hdom in Hd. by apply elem_of_list_to_set in Hd.
Qed.

Lemma X9_quantity_attributes_witness :
  ∃ combined_var,
    aggregate sample_env "z" [(500, grid 2 2 [1]); (100, grid 2 2 [2])]
      = Ok combined_var ∧
    da_attrs (pv_array combined_var) !! "units" = Some (AStr "m").
Proof.
  destruct (X9_quantity_attributes sample_env "z"
              [(500, grid 2 2 [1]); (100, grid 2 2 [2])]
              [(100, grid 2 2 [2]); (500, grid 2 2 [1])]
              {| da_dims := [("plevel", 2%nat); ("time", 1%nat); ("lat", 2%nat);
                             ("lon", 2%nat)];
                 da_attrs := ∅; da_values := [2; 1] |})
    as (combined_var & Hagg & Hq & _).
  - by_decide.
  - reflexivity.
  - reflexivity.
  - exists combined_var. split; [exact Hagg |].
    destruct (Hq "units") as [_ ->]; [by_decide | reflexivity].
Defined.

Lemma metadata_dict_surface :
  Forall (λ name, ∃ a, metadata_dict !! name = Some a ∧
    Forall (λ k, is_Some (a !! k)) ["long_name"; "standard_name"; "units"])
    surface_var_names.
Proof.
  repeat (constructor; [eexists; split; [reflexivity | by_decide] |]). constructor.
Qed.

Lemma metadata_dict_no_pressure :
  Forall (λ base, Forall (λ level,
    metadata_dict !! (base +:+ pretty level) = None) pressure_levels) pressure_vars.
Proof. by_decide. Qed.

(** X10. With the catalog of the script, a surface variable is stored with
    the history dimension dropped and with the catalog's [long_name],
    [standard_name] and [units] of its name in place of its own; attributes
    the catalog entry does not have, and the cells, stay.  A pressure-level
    variable has no catalog entry: it is stored with the history dimension
    dropped and nothing else changed. *)
Theorem X10_catalog_enrichment (var_name : string) (raw : DataArray) :
  (var_name ∈ surface_var_names →
     ∃ a, metadata_dict !! var_name = Some a ∧
       (∀ k, k ∈ ["long_name"; "standard_name"; "units"] →
          is_Some (a !! k) ∧
          da_attrs (enrich_var metadata_dict var_name raw) !! k = a !! k) ∧
       (∀ k, a !! k = None →
          da_attrs (enrich_var metadata_dict var_name raw) !! k = da_attrs raw !! k) ∧
       da_dims (enrich_var metadata_dict var_name raw)
         = da_dims (drop_history_dim raw) ∧
       da_values (enrich_var metadata_dict var_name raw) = da_values raw) ∧
  (is_pressure_name var_name →
     enrich_var metadata_dict var_name raw = drop_history_dim raw).
Proof.
  assert (da_attrs (drop_history_dim raw) = da_attrs raw) as Hattrs.
  { unfold drop_history_dim.
    by destruct (dim_size "history" (da_dims raw)) as [[|[|n]]|]. }
  split.
  - intros Hs. pose proof metadata_dict_surface as Ht. rewrite Forall_forall in Ht.
    destruct (Ht var_name Hs) as (a & Ha & Hk). rewrite Forall_forall in Hk.
    exists a. split; [done |]. unfold enrich_var. rewrite Ha.
    cbn [da_update_attrs da_attrs da_dims da_values]. unfold attrs_update.
    rewrite Hattrs. split; [|split; [|split; [done |]]].
    + intros k Hin. destruct (Hk k Hin) as [v Hv]. split; [by eexists |].
      rewrite Hv. by apply lookup_union_Some_l.
    + intros k Hnone. by apply lookup_union_r.
    + by rewrite <- (enrich_var_values ∅ var_name raw).
  - intros (base & level & Hb & Hl & ->).
    pose proof metadata_dict_no_pressure as Ht. rewrite Forall_forall in Ht.
    specialize (Ht base Hb). rewrite Forall_forall in Ht.
    unfold enrich_var. by rewrite (Ht level Hl).
Qed.

Lemma X10_catalog_enrichment_witness :
  (∃ a, metadata_dict !! "msl" = Some a ∧
     da_attrs (enrich_var metadata_dict "msl" (grid 2 2 [1; 2; 3; 4])) !! "units"
       = a !! "units") ∧
  enrich_var metadata_dict "t500" (grid 2 2 [1; 2; 3; 4])
    = drop_history_dim (grid 2 2 [1; 2; 3; 4]).
Proof.
  destruct (X10_catalog_enrichment "msl" (grid 2 2 [1; 2; 3; 4])) as [Hs _].
  destruct (X10_catalog_enrichment "t500" (grid 2 2 [1; 2; 3; 4])) as [_ Hp].
  split.
  - destruct Hs as (a & Ha & Hk & _); [by_decide |].
    exists a. split; [exact Ha |]. apply Hk. by_decide.
  - apply Hp. exists "t", 500. repeat split; by_decide.
Defined.

(** ** The dispatcher *)





Lemma chunksize_pos (n processes : nat) :
  (0 < n)%nat → (0 < processes)%nat → (0 < chunksize n processes)%nat.
Proof.
  intros Hn Hp. unfold chunksize.
  destruct (n mod (processes * 4) =? 0)%nat eqn:Hmod; [|lia].
  apply Nat.eqb_eq in Hmod.
  pose proof (Nat.div_mod_eq n (processes * 4)) as Hdiv.
  destruct (n / (processes * 4))%nat; lia.
Qed.

Lemma concat_chunks (fuel size : nat) (l : list string) :
  (0 < size)%nat → (length l ≤ fuel)%nat → concat (chunks fuel size l) = l.
Proof.
  intros Hsize. revert l. induction fuel as [|fuel IH]; intros l Hlen.
  - destruct l; [done | simpl in Hlen; lia].
  - destruct l as [|x l]; [done |].
    change (chunks (S fuel) size (x :: l))
      with (take size (x :: l) :: chunks fuel size (drop size (x :: l))).
    simpl concat. rewrite IH; [apply take_drop |].
    rewrite length_drop. simpl in *. lia.
Qed.

Lemma run_chunk_app (E : Env) (input_dir output_base_dir : string)
    (md : gmap string (gmap string attr_val)) (a b : list string) (w : World) :
  run_chunk E input_dir output_base_dir md (a ++ b) w =
    match run_chunk E input_dir output_base_dir md a w with
    | (w1, Returned) => run_chunk E input_dir output_base_dir md b w1
    | (w1, Raised e) => (w1, Raised e)
    end.
Proof.
  revert w. induction a as [|f a IH]; intros w; simpl; [done |].
  destruct (process_single_netcdf E f input_dir output_base_dir md w) as [w' [|e]];
    [apply IH | done].
Qed.

Lemma run_chunks_concat (E : Env) (input_dir output_base_dir : string)
    (md : gmap string (gmap string attr_val)) (cs : list (list string)) (w : World) :
  (run_chunk E input_dir output_base_dir md (concat cs) w).2 = Returned →
  run_chunks E input_dir output_base_dir md cs w =
  run_chunk E input_dir output_base_dir md (concat cs) w.
Proof.
  revert w. induction cs as [|c cs IH]; intros w; [done |].
  simpl concat. rewrite run_chunk_app. simpl run_chunks.
  destruct (run_chunk E input_dir output_base_dir md c w) as [w1 [|e]]; [|done].
  intros Hret. rewrite (IH w1 Hret).
  by destruct (run_chunk E input_dir output_base_dir md (concat cs) w1) as [w2 o2].
Qed.

(** X12. On a machine with at least one processor, a run in which no call
    of the transformer raises does to the world what calling the transformer
    once for every discovered file, in ascending order of the names, does:
    the chunks of the pool cover every discovered file once, none twice and
    none left out. *)
Theorem X12_every_file_once (E : Env) (year input_dir : string)
    (md : gmap string (gmap string attr_val)) (w : World) (listing : list string) :
  os_listdir E input_dir = Ok listing →
  discover year listing ≠ [] →
  (0 < cpu_count E)%nat →
  let output_base_dir := path_join (os_getcwd E) year in
  let sequential :=
    run_chunk E input_dir output_base_dir md (discover year listing)
      (makedirs output_base_dir w) in
  sequential.2 = Returned →
  process_netcdf_for_year E year input_dir md w = sequential.
Proof.
  intros Hlist Hne Hcpu output_base_dir sequential Hret.
  unfold process_netcdf_for_year. rewrite Hlist. fold output_base_dir.
  destruct (discover year listing) as [|f files] eqn:Hfiles; [done |].
  assert ((Nat.min 4 (cpu_count E) =? 0)%nat = false) as ->
    by (apply Nat.eqb_neq; lia).
  set (all := f :: files) in *.
  assert (concat (chunks (length all) (chunksize (length all) (Nat.min 4 (cpu_count E)))
                    all) = all) as Hcat.
  { apply concat_chunks; [|done]. apply chunksize_pos; [simpl; lia | lia]. }
  rewrite run_chunks_concat; rewrite Hcat; done.
Qed.

Lemma X12_every_file_once_witness :
  let E := {| xr_open_dataset := xr_open_dataset sample_env;
              xr_concat := concat_same_shape;
              os_listdir := λ _, Ok ["graphcast_2024_01_03.nc"; "notes.txt";
                                     "graphcast_2024_01_01.nc"];
              os_getcwd := "/work";
              utcnow := utcnow sample_env;
              cpu_count := 2 |} in
  process_netcdf_for_year E "2024" "/in" metadata_dict world0 =
    run_chunk E "/in" "/work/2024" metadata_dict
      ["graphcast_2024_01_01.nc"; "graphcast_2024_01_03.nc"]
      (makedirs "/work/2024" world0).
Proof.
  intros E.
  apply (X12_every_file_once E "2024" "/in" metadata_dict world0
           ["graphcast_2024_01_03.nc"; "notes.txt"; "graphcast_2024_01_01.nc"]).
  - reflexivity.
  - by vm_compute.
  - simpl. lia.
  - vm_compute. reflexivity.
Defined.

(** ** The date of a discovered file *)

(** X13. For a year of four digits, the date the transformer takes from a
    discovered file is the year and the two digit groups at the start of
    its name, and nothing after [.nc] changes it: two discovered names that
    differ only after [.nc] get the same date, hence the same output
    names. *)
Theorem X13_date_of_discovered_file (year f : string) :
  String.length year = 4%nat → all_digits year = true →
  re_match_year year f = true →
  ∃ m d rest,
    f = "graphcast_" +:+ year +:+ "_" +:+ m +:+ "_" +:+ d +:+ ".nc" +:+ rest ∧
    re_search_date f = Some (year, m, d) ∧
    ∀ suffix, re_search_date (f +:+ suffix) = Some (year, m, d).
Proof.
  intros Hlen Hdig Hmatch.
  apply re_match_year_spec in Hmatch as (m & d & rest & -> & Hm & Hd).
  exists m, d, rest. split; [done |].
  assert (∀ post, re_search_date
            ("graphcast_" +:+ year +:+ "_" +:+ m +:+ "_" +:+ d +:+ post)
          = Some (year, m, d)) as Hstart.
  { intros post. apply re_search_date_at_start, match_date_at_spec.
    exists post. done. }
  split; [apply Hstart |].
  intros suffix. rewrite !append_assoc. apply Hstart.
Qed.

Lemma X13_date_of_discovered_file_witness :
  re_search_date ("graphcast_2024_01_01.nc.bak" +:+ "2") = Some ("2024", "01", "01").
Proof.
  destruct (X13_date_of_discovered_file "2024" "graphcast_2024_01_01.nc.bak")
    as (m & d & rest & Hname & Hdate & Hsuffix); [reflexivity.. |].
  rewrite Hsuffix, <- Hdate. reflexivity.
Defined.

(** ** The datasets written *)

Lemma aggregate_plevel (E : Env) (var : string) (level_data : list (Z * DataArray))
    (combined_var : PressureVariable) :
  aggregate E var level_data = Ok combined_var →
  level_data ≠ [] →
  Forall (λ level, level ∈ pressure_levels) level_data.*1 →
  pv_plevel combined_var ≠ [] ∧
  StronglySorted Z.lt (pv_plevel combined_var) ∧
  Forall (λ level, level ∈ pressure_levels) (pv_plevel combined_var).
Proof.
  intros Hagg Hne Hlev. unfold aggregate in Hagg.
  destruct (sorted_level_data level_data) as [pairs|] eqn:Hs; [|done].
  destruct (xr_concat E pairs.*2 "plevel") as [combined|e]; [|done].
  injection Hagg as <-. cbn [pv_plevel].
  destruct (sorted_level_data_Some _ _ Hs) as [Hperm Hsorted].
  assert (int32 <$> pairs.*1 = pairs.*1) as ->.
  { rewrite <- (list_fmap_id (pairs.*1)) at 2. apply list_fmap_ext.
    intros i level Hi. apply list_elem_of_lookup_2 in Hi. rewrite Hperm in Hi.
    rewrite Forall_forall in Hlev. specialize (Hlev level Hi).
    pose proof int32_pressure_levels as Ht. rewrite Forall_forall in Ht.
    by apply Ht. }
  split; [|split].
  - intros Hnil. apply fmap_nil_inv in Hnil. subst pairs.
    by apply Permutation_nil in Hperm.
  - by eapply (StronglySorted_fmap fst level_lt Z.lt).
  - by rewrite Hperm.
Qed.

(** X14. Every dataset a call of the transformer writes is sound, whatever
    the input file holds: variables with unrecognized names are in no
    surface dataset, and no pressure-level dataset has an empty, unordered
    or foreign [plevel] coordinate. *)
Theorem X14_outputs_sound (E : Env)
    (input_file input_dir output_base_dir : string)
    (md : gmap string (gmap string attr_val)) (w : World) :
  let r := process_single_netcdf E input_file input_dir output_base_dir md w in
  ∃ news, w_netcdf r.1 = w_netcdf w ++ news ∧
    Forall (λ n, sound_output (nc_dataset n)) news.
Proof.
  intros r. subst r.
  assert (∃ news : list NetcdfWrite, w_netcdf w = w_netcdf w ++ news ∧
            Forall (λ n, sound_output (nc_dataset n)) news) as Hnone.
  { exists []. by rewrite app_nil_r. }
  unfold process_single_netcdf.
  destruct (re_search_date input_file) as [[[y m] d]|]; [|exact Hnone].
  destruct (xr_open_dataset E (path_join input_dir input_file)) as [ds|e];
    [|exact Hnone].
  set (date_str := y +:+ "-" +:+ m +:+ "-" +:+ d). set (w0 := print _ w).
  unfold transform.
  destruct (enrich_lat_lon md ds) as [ds1|e] eqn:Hen; [|exact Hnone].
  set (c := collect md _ _ _). set (attrs := global_attrs _ _ _).
  set (w1 := write_surface output_base_dir date_str attrs (surface_ds c) (tick 2 w0)).
  destruct (write_surface_frame output_base_dir date_str attrs (surface_ds c) (tick 2 w0))
    as (Hn1 & _). fold w1 in Hn1. cbn [tick w_netcdf] in Hn1.
  destruct (write_pressure_frame E output_base_dir date_str attrs
              (grouped_pressure_data c) pressure_vars w1)
    as ((news & Hn2 & Hall) & _).
  destruct (collect_from md (ds_variables (enrich_time ds1))
              (ds_data_vars (enrich_time ds1)) [] collected_init collected_from_init)
    as [Hsurf Hgroup].
  fold c in Hsurf, Hgroup.
  eexists. split; [rewrite Hn2, Hn1, <- app_assoc; reflexivity |].
  apply Forall_app. split.
  - unfold surface_writes. case_decide as Hempty; [constructor |].
    constructor; [|constructor]. split; [done |].
    intros name Hname. by destruct (Hsurf name Hname).
  - eapply Forall_impl; [exact Hall |].
    intros n (var & Hvar & pv & Hne & Hagg & ->). cbn [nc_dataset sound_output].
    split; [done |]. apply (aggregate_plevel E var _ pv Hagg Hne).
    rewrite lookup_total_alt in Hne |- *.
    destruct (grouped_pressure_data c !! var) as [g|] eqn:Hg; simpl in *; [|done].
    apply Forall_forall. intros level Hin.
    apply list_elem_of_fmap in Hin as ([l a] & -> & Hin).
    by destruct (Hgroup var g l a Hg Hin) as (_ & ? & _).
Qed.

(** ** The failure log of a batch *)



